(** * REGISTRO-IPADS: the reservation server, embedded and verified

    The repository holds two versions of the Express server:
    - the batch server ([Batch] below, [src/unnamed/part_000]), with
      [POST /api/reserve] taking a list of device ids, [POST /api/return], a
      history table and statistics;
    - the single-device server ([Single] below, [src/server.ts]), whose
      [POST /api/reserve] takes one device id and refuses week-ends.

    Both keep their state in one SQLite file.  A table is a list of rows in
    rowid order, a prepared statement is a function on the database that may
    raise an SQLite error, and [db.transaction] restores the database when
    its body raises.  Device ids are integers and the text fields are
    strings, as the handlers type them; failures of the storage itself are
    outside the model. *)

From Stdlib Require Import ZArith List String Ascii Bool Lia Permutation.
From Stdlib Require Import DecimalString DecimalPos DecimalZ Sorted.
Import ListNotations.

Local Open Scope string_scope.
Local Open Scope Z_scope.

(** ** JavaScript values used by the handlers *)

Module JS.

(** Text fields of a request body are strings; an absent field and the
    empty string are both falsy and every use in the handlers is behind
    [!x] or [x || d], so an absent field is the empty string here. *)
Definition truthy (s : string) : bool := negb (s =? "")%string.

(** [x || d] on strings. *)
Definition or_else (s d : string) : string := if truthy s then s else d.

(** [String(n)] for an integer [n]. *)
Definition Number_toString (n : Z) : string :=
  NilZero.string_of_int (Z.to_int n).

(** [xs.join(sep)]. *)
Definition join (sep : string) (xs : list string) : string :=
  String.concat sep xs.

(** [s < t] on strings: code units compared left to right. *)
Definition lt (s t : string) : bool := String.ltb s t.

(** A [Set<string>] keeps its elements in insertion order. *)
Definition Set_add (s : list string) (x : string) : list string :=
  if existsb (String.eqb x) s then s else s ++ [x].

(** [s.padStart(n, c)] for a one-character pad. *)
Fixpoint repeat_char (n : nat) (c : ascii) : string :=
  match n with
  | O => EmptyString
  | S n' => String c (repeat_char n' c)
  end.

Definition padStart (n : nat) (c : ascii) (s : string) : string :=
  repeat_char (n - String.length s) c ++ s.

End JS.

(** ** Calendar dates and their ISO form *)

(** A day of the proleptic Gregorian calendar. *)
Record Civil : Type := mkCivil {
  year : Z;
  month : Z;
  day : Z
}.

Definition digit (n : Z) : ascii := ascii_of_N (48 + Z.to_N n).

Definition pad2 (n : Z) : string :=
  String (digit (n / 10)) (String (digit (n mod 10)) EmptyString).

Definition pad4 (n : Z) : string :=
  String (digit (n / 1000))
    (String (digit (n / 100 mod 10)) (pad2 (n mod 100))).

(** [d.toISOString().split('T')[0]] for a date of the years 0 to 9999. *)
Definition toISODate (d : Civil) : string :=
  pad4 (year d) ++ "-" ++ pad2 (month d) ++ "-" ++ pad2 (day d).

Definition is_leap (y : Z) : bool :=
  ((y mod 4 =? 0) && negb (y mod 100 =? 0)) || (y mod 400 =? 0).

Definition days_in_month (y m : Z) : Z :=
  if m =? 2 then (if is_leap y then 29 else 28)
  else if (m =? 4) || (m =? 6) || (m =? 9) || (m =? 11) then 30
  else 31.

Definition civil_valid (d : Civil) : bool :=
  (0 <=? year d) && (year d <=? 9999)
  && (1 <=? month d) && (month d <=? 12)
  && (1 <=? day d) && (day d <=? days_in_month (year d) (month d)).

(** The calendar order. *)
Definition civil_ltb (a b : Civil) : bool :=
  (year a <? year b)
  || ((year a =? year b)
      && ((month a <? month b)
          || ((month a =? month b) && (day a <? day b)))).

(** Days from 1970-01-01 to a calendar day. *)
Definition days_from_civil (d : Civil) : Z :=
  let y := if month d <=? 2 then year d - 1 else year d in
  let era := y / 400 in
  let yoe := y - era * 400 in
  let mp := (month d + 9) mod 12 in
  let doy := (153 * mp + 2) / 5 + day d - 1 in
  let doe := yoe * 365 + yoe / 4 - yoe / 100 + doy in
  era * 146097 + doe - 719468.

Definition digit_value (c : ascii) : option Z :=
  let n := Z.of_N (N_of_ascii c) in
  if (48 <=? n) && (n <=? 57) then Some (n - 48) else None.

Definition number_of_digits (cs : list ascii) : option Z :=
  fold_left
    (fun acc c =>
       match acc, digit_value c with
       | Some n, Some v => Some (10 * n + v)
       | _, _ => None
       end)
    cs (Some 0).

(** The date a string [YYYY-MM-DD] denotes. *)
Definition parse_iso_date (s : string) : option Civil :=
  match list_ascii_of_string s with
  | [y1; y2; y3; y4; "-"%char; m1; m2; "-"%char; d1; d2] =>
      match number_of_digits [y1; y2; y3; y4],
            number_of_digits [m1; m2],
            number_of_digits [d1; d2] with
      | Some y, Some m, Some d =>
          let c := mkCivil y m d in
          if civil_valid c then Some c else None
      | _, _, _ => None
      end
  | _ => None
  end.

(** [Day(t)] and [WeekDay(t)] of ECMAScript: [getUTCDay] of a date whose
    time value is [t]; 0 is Sunday and 6 is Saturday. *)
Definition msPerDay : Z := 86400000.

Definition getUTCDay (t : Z) : Z := (t / msPerDay + 4) mod 7.

(** ** The schema *)

(** A row of [reservations]. *)
Record Reservation : Type := mkReservation {
  id : Z;
  ipad_id : Z;
  fecha : string;
  bloque_horario : string;
  docente : string;
  curso : string;
  timestamp : string
}.

(** The [tipo] column of [history]. *)
Inductive Tipo : Type := RESERVA | DEVOLUCION.

(** A row of [history]. *)
Record HistoryRow : Type := mkHistoryRow {
  h_id : Z;
  h_docente : string;
  h_curso : string;
  h_ipads : string;
  h_fecha : string;
  h_bloque_horario : string;
  h_tipo : Tipo;
  h_novedades : string;
  h_timestamp : string
}.

(** The database file: the three tables the reservation engine reads or
    writes, and the AUTOINCREMENT counters of [sqlite_sequence]. *)
Record Database : Type := mkDatabase {
  ipads : list Z;
  reservations : list Reservation;
  history : list HistoryRow;
  seq_reservations : Z;
  seq_history : Z
}.

(** The key of [UNIQUE(ipad_id, fecha, bloque_horario)]. *)
Definition Slot : Type := (Z * string * string)%type.

Definition slot (r : Reservation) : Slot :=
  (ipad_id r, fecha r, bloque_horario r).

Definition slot_eqb (s t : Slot) : bool :=
  let '(i, f, b) := s in
  let '(i', f', b') := t in
  (i =? i') && (f =? f')%string && (b =? b')%string.

Arguments slot_eqb : simpl never.

(** Whether a row of [reservations] holds the slot. *)
Definition slot_taken (s : Slot) (rows : list Reservation) : bool :=
  existsb (fun r => slot_eqb (slot r) s) rows.

(** The seeding loop [for (let i = 1; i <= 60; i++) insertIpad.run(i)]. *)
Definition seed_ipads : list Z := map Z.of_nat (seq 1 60).

(** The database after start-up on a fresh file. *)
Definition init_db : Database :=
  mkDatabase seed_ipads [] [] 0 0.

(** What the server reads from its clock while it serves one request: the
    UTC day, from which [new Date().toISOString().split('T')[0]] is made, and
    SQLite's [CURRENT_TIMESTAMP]. *)
Record Clock : Type := mkClock {
  utc_date : Civil;
  CURRENT_TIMESTAMP : string
}.

Definition todayStr (clk : Clock) : string := toISODate (utc_date clk).

(** ** Statements and transactions *)

Inductive SqliteError : Type :=
| SQLITE_CONSTRAINT_UNIQUE
| SQLITE_OTHER.

(** A statement run against the database either raises or returns a value
    and the database it leaves. *)
Definition Stmt (A : Type) : Type := Database -> SqliteError + (A * Database).

Definition ret {A} (a : A) : Stmt A := fun db => inr (a, db).

Definition bind {A B} (m : Stmt A) (k : A -> Stmt B) : Stmt B :=
  fun db =>
    match m db with
    | inl e => inl e
    | inr (a, db') => k a db'
    end.

Notation "x <- m ;; k" := (bind m (fun x => k))
  (at level 61, m at next level, right associativity).
Notation "m ;;; k" := (bind m (fun _ => k))
  (at level 61, right associativity).

(** [for (const x of xs) body(x)]. *)
Fixpoint for_of {A} (xs : list A) (body : A -> Stmt unit) : Stmt unit :=
  match xs with
  | [] => ret tt
  | x :: xs' => body x ;;; for_of xs' body
  end.

(** [db.transaction(fn)(args)]: commit what [fn] did, or roll back to the
    database as it was and raise again. *)
Definition transaction {A} (fn : Stmt A) (db : Database)
  : (SqliteError + A) * Database :=
  match fn db with
  | inl e => (inl e, db)
  | inr (a, db') => (inr a, db')
  end.

(** [INSERT INTO reservations (ipad_id, fecha, bloque_horario, docente, curso)
    VALUES (?, ?, ?, ?, ?)]: refused by [UNIQUE(ipad_id, fecha,
    bloque_horario)] when the slot has a row already; the new row takes the
    next AUTOINCREMENT id. *)
Definition insert_reservation (clk : Clock)
    (i : Z) (f b d c : string) : Stmt unit :=
  fun db =>
    if slot_taken (i, f, b) (reservations db)
    then inl SQLITE_CONSTRAINT_UNIQUE
    else
      let n := seq_reservations db + 1 in
      inr (tt, mkDatabase (ipads db)
                 (reservations db
                    ++ [mkReservation n i f b d c (CURRENT_TIMESTAMP clk)])
                 (history db) n (seq_history db)).

(** [INSERT INTO history (docente, curso, ipads, fecha, bloque_horario, tipo,
    novedades) VALUES (...)]. *)
Definition insert_history (clk : Clock)
    (d c i f b : string) (t : Tipo) (n : string) : Stmt unit :=
  fun db =>
    let k := seq_history db + 1 in
    inr (tt, mkDatabase (ipads db) (reservations db)
               (history db
                  ++ [mkHistoryRow k d c i f b t n (CURRENT_TIMESTAMP clk)])
               (seq_reservations db) k).

(** [WHERE ipad_id = ? AND fecha = ?]. *)
Definition where_ipad_fecha (i : Z) (f : string) (r : Reservation) : bool :=
  (ipad_id r =? i) && (fecha r =? f)%string.

(** The database with another content of [reservations]. *)
Definition set_reservations (db : Database) (rows : list Reservation)
  : Database :=
  mkDatabase (ipads db) rows (history db)
             (seq_reservations db) (seq_history db).

(** The answers of the handlers, by status code. *)
Inductive Response : Type :=
| Ok200            (* { success: true } *)
| BadRequest400    (* ValidationError *)
| NotFound404      (* NotFound *)
| Conflict409      (* Conflict *)
| ServerError500.  (* StorageFailure *)

(** ** What the handlers take from SQLite and from the JavaScript engine *)

(** The three rankings of the statistics. *)
Inductive Ranking : Type := ByDevice | ByDate | ByBlock.

(** Three behaviours of SQLite that the SQL text leaves open.  A SELECT
    without ORDER BY returns the rows it matches in an order of the engine's
    choosing; [strftime(format, text)] is NULL when the text is not a date,
    and reads the text ['now'] as the time of the query; [ORDER BY count DESC
    LIMIT 1] over groups returns a group of the largest count, and which one
    among several is the engine's choice, made for each of the three
    rankings on its own.  A value of the class stands for the engine at the
    time it serves one request. *)
Class SQLite : Type := {
  select_order : list Reservation -> list Reservation;
  select_order_perm : forall rows, Permutation (select_order rows) rows;
  strftime : string -> string -> option string;
  order_by_count_desc_limit_1 :
    forall {K : Type}, Ranking -> list (K * nat) -> option (K * nat);
  limit_1_empty :
    forall (K : Type) (q : Ranking),
      order_by_count_desc_limit_1 q (@nil (K * nat)) = None;
  limit_1_largest :
    forall (K : Type) (q : Ranking) (gs : list (K * nat)) (g : K * nat),
      order_by_count_desc_limit_1 q gs = Some g ->
      In g gs /\ forall h, In h gs -> (snd h <= snd g)%nat;
  limit_1_some :
    forall (K : Type) (q : Ranking) (gs : list (K * nat)),
      gs <> [] -> order_by_count_desc_limit_1 q gs <> None
}.

(** [Date.parse]: the time value of a date string in milliseconds since the
    epoch, or NaN ([None]). *)
Class JSDate : Type := {
  Date_parse : string -> option Z
}.

(** [strftime] and [Date.parse] on the dates an [<input type="date">] of the
    client sends: only [YYYY-MM-DD] is read as a date. *)
Definition strftime_iso (format s : string) : option string :=
  match parse_iso_date s with
  | Some d =>
      if (format =? "%m")%string then Some (pad2 (month d))
      else if (format =? "%Y")%string then Some (pad4 (year d))
      else None
  | None => None
  end.

Definition Date_parse_iso (s : string) : option Z :=
  match parse_iso_date s with
  | Some d => Some (days_from_civil d * msPerDay)
  | None => None
  end.

(** ** Grouping and ranking, as the statistics queries do *)

Section GroupBy.

Context {K : Type} (cmp : K -> K -> comparison).

(** One more row for key [k] in the groups gathered so far. *)
Fixpoint tally (k : K) (gs : list (K * nat)) : list (K * nat) :=
  match gs with
  | [] => [(k, 1%nat)]
  | (k', n) :: gs' =>
      match cmp k k' with
      | Lt => (k, 1%nat) :: gs
      | Eq => (k', S n) :: gs'
      | Gt => (k', n) :: tally k gs'
      end
  end.

(** [SELECT k, COUNT( * ) ... GROUP BY k]: SQLite aggregates over the rows
    sorted by the grouping key, so the groups reach the ranking step in key
    order, whatever the order of the rows in the table. *)
Definition group_by_count (keys : list K) : list (K * nat) :=
  fold_left (fun gs k => tally k gs) keys [].

End GroupBy.

(** A ranking step that keeps, among the groups of the largest count, the
    one it met first. *)
Fixpoint first_of_largest_count {K : Type} (gs : list (K * nat))
  : option (K * nat) :=
  match gs with
  | [] => None
  | g :: gs' =>
      match first_of_largest_count gs' with
      | None => Some g
      | Some h => if (snd g <? snd h)%nat then Some h else Some g
      end
  end.

(** A ranking step that keeps, among the groups of the largest count, the
    one it met last. *)
Fixpoint last_of_largest_count {K : Type} (gs : list (K * nat))
  : option (K * nat) :=
  match gs with
  | [] => None
  | g :: gs' =>
      match last_of_largest_count gs' with
      | None => Some g
      | Some h => if (snd h <? snd g)%nat then Some g else Some h
      end
  end.

(** The rankings of the engine of the examples: of several devices of the
    largest count the lowest, of several dates or blocks the highest. *)
Definition rank {K : Type} (q : Ranking) (gs : list (K * nat))
  : option (K * nat) :=
  match q with
  | ByDevice => first_of_largest_count gs
  | ByDate | ByBlock => last_of_largest_count gs
  end.


(** ** The batch server *)

Module Batch.

(** The body of [POST /api/reserve].  [rq_ipad_ids] is empty when
    [ipad_ids] is absent, is not an array or is the empty array: the three
    are refused alike. *)
Record ReserveBody : Type := mkReserveBody {
  rq_ipad_ids : list Z;
  rq_fecha : string;
  rq_bloque_horario : string;
  rq_docente : string;
  rq_curso : string
}.

(** The body of [POST /api/return]. *)
Record ReturnBody : Type := mkReturnBody {
  rt_ipad_ids : list Z;
  rt_fecha : string;
  rt_docente : string;
  rt_curso : string;
  rt_novedades : string
}.

(** A value of the statistics answer. *)
Inductive Json : Type :=
| JNumber (n : Z)
| JString (s : string).

(** The answer of [GET /api/stats]. *)
Record Stats : Type := mkStats {
  total : Json;
  ipadMasUsado : Json;
  diaMasDemanda : Json;
  bloqueMasReservado : Json
}.

(** The value the statistics show for a rank without rows. *)
Definition no_data : Json := JString "N/A".

Section Handlers.

Context {engine : SQLite}.

(** *** POST /api/reserve *)

Definition insertRes (clk : Clock) (body : ReserveBody) (i : Z)
  : Stmt unit :=
  insert_reservation clk i (rq_fecha body) (rq_bloque_horario body)
    (rq_docente body) (JS.or_else (rq_curso body) "").

Definition reserve_transaction (clk : Clock) (body : ReserveBody)
    (ids : list Z) : Stmt unit :=
  for_of ids (insertRes clk body) ;;;
  insert_history clk (rq_docente body) (JS.or_else (rq_curso body) "")
    (JS.join ", " (map JS.Number_toString ids))
    (rq_fecha body) (rq_bloque_horario body) RESERVA "".

(** The guard on the body: [true] when the request is answered 400. *)
Definition reserve_invalid (body : ReserveBody) : bool :=
  (List.length (rq_ipad_ids body) =? 0)%nat
  || negb (JS.truthy (rq_fecha body))
  || negb (JS.truthy (rq_bloque_horario body))
  || negb (JS.truthy (rq_docente body)).

Definition post_reserve (clk : Clock) (body : ReserveBody) (db : Database)
  : Response * Database :=
  if reserve_invalid body then (BadRequest400, db)
  else
    match transaction (reserve_transaction clk body (rq_ipad_ids body)) db
    with
    | (inr _, db') => (Ok200, db')
    | (inl SQLITE_CONSTRAINT_UNIQUE, db') => (Conflict409, db')
    | (inl _, db') => (ServerError500, db')
    end.

(** *** POST /api/return *)

(** [SELECT bloque_horario FROM reservations WHERE ipad_id = ? AND
    fecha = ?]. *)
Definition getBlocks (i : Z) (f : string) : Stmt (list string) :=
  fun db =>
    inr (map bloque_horario
           (select_order
              (filter (where_ipad_fecha i f) (reservations db))),
         db).

(** [DELETE FROM reservations WHERE ipad_id = ? AND fecha = ?]. *)
Definition remove (i : Z) (f : string) : Stmt unit :=
  fun db =>
    inr (tt, set_reservations db
               (filter (fun r => negb (where_ipad_fecha i f r))
                       (reservations db))).

(** The loop of the transaction, threading [releasedBlocks]. *)
Fixpoint release (f : string) (ids : list Z) (releasedBlocks : list string)
  : Stmt (list string) :=
  match ids with
  | [] => ret releasedBlocks
  | i :: ids' =>
      rows <- getBlocks i f ;;
      if (0 <? List.length rows)%nat then
        remove i f ;;;
        release f ids' (fold_left JS.Set_add rows releasedBlocks)
      else release f ids' releasedBlocks
  end.

Definition return_transaction (clk : Clock) (body : ReturnBody)
    (ids : list Z) : Stmt bool :=
  releasedBlocks <- release (rt_fecha body) ids [] ;;
  if (0 <? List.length releasedBlocks)%nat then
    insert_history clk (JS.or_else (rt_docente body) "N/A")
      (JS.or_else (rt_curso body) "N/A")
      (JS.join ", " (map JS.Number_toString ids))
      (rt_fecha body) (JS.join ", " releasedBlocks) DEVOLUCION
      (JS.or_else (rt_novedades body) "") ;;;
    ret true
  else ret false.

Definition return_invalid (body : ReturnBody) : bool :=
  (List.length (rt_ipad_ids body) =? 0)%nat
  || negb (JS.truthy (rt_fecha body)).

Definition post_return (clk : Clock) (body : ReturnBody) (db : Database)
  : Response * Database :=
  if return_invalid body then (BadRequest400, db)
  else if JS.lt (rt_fecha body) (todayStr clk) then (BadRequest400, db)
  else
    match transaction (return_transaction clk body (rt_ipad_ids body)) db
    with
    | (inr true, db') => (Ok200, db')
    | (inr false, db') => (NotFound404, db')
    | (inl _, db') => (ServerError500, db')
    end.

(** *** GET /api/stats *)

(** [a = ?] in a WHERE clause, false on NULL. *)
Definition sql_eq (a : option string) (b : string) : bool :=
  match a with
  | Some s => (s =? b)%string
  | None => false
  end.

(** [WHERE strftime('%m', fecha) = ? AND strftime('%Y', fecha) = ?],
    read on the date of a row. *)
Definition in_month (m y f : string) : bool :=
  sql_eq (strftime "%m" f) m && sql_eq (strftime "%Y" f) y.

Definition month_rows (m y : string) (db : Database) : list Reservation :=
  filter (fun r => in_month m y (fecha r)) (reservations db).

Definition totalReservas (m y : string) (db : Database) : Z :=
  Z.of_nat (List.length (month_rows m y db)).

Definition ipadMasUsado_row (m y : string) (db : Database)
  : option (Z * nat) :=
  order_by_count_desc_limit_1 ByDevice
    (group_by_count Z.compare (map ipad_id (month_rows m y db))).

Definition diaMasDemanda_row (m y : string) (db : Database)
  : option (string * nat) :=
  order_by_count_desc_limit_1 ByDate
    (group_by_count String.compare (map fecha (month_rows m y db))).

Definition bloqueMasReservado_row (m y : string) (db : Database)
  : option (string * nat) :=
  order_by_count_desc_limit_1 ByBlock
    (group_by_count String.compare
       (map bloque_horario (month_rows m y db))).

(** [row?.ipad_id || "N/A"]. *)
Definition number_or_NA (row : option (Z * nat)) : Json :=
  match row with
  | Some (n, _) => if n =? 0 then JString "N/A" else JNumber n
  | None => JString "N/A"
  end.

(** [row?.fecha || "N/A"] and [row?.bloque_horario || "N/A"]. *)
Definition string_or_NA (row : option (string * nat)) : Json :=
  match row with
  | Some (s, _) => JString (JS.or_else s "N/A")
  | None => JString "N/A"
  end.

(** The handler, for a query that carries [month] and [year]. *)
Definition get_stats (month year : string) (db : Database) : Stats :=
  let m := JS.padStart 2 "0"%char month in
  let y := year in
  mkStats (JNumber (totalReservas m y db))
          (number_or_NA (ipadMasUsado_row m y db))
          (string_or_NA (diaMasDemanda_row m y db))
          (string_or_NA (bloqueMasReservado_row m y db)).

End Handlers.

End Batch.

(** ** The single-device server *)

Module Single.

(** The body of [POST /api/reserve]; an absent [ipad_id] is 0, falsy as
    well. *)
Record ReserveBody : Type := mkReserveBody {
  rq_ipad_id : Z;
  rq_fecha : string;
  rq_bloque_horario : string;
  rq_docente : string;
  rq_curso : string
}.

Section Handlers.

Context {js : JSDate}.

Definition reserve_invalid (body : ReserveBody) : bool :=
  (rq_ipad_id body =? 0)
  || negb (JS.truthy (rq_fecha body))
  || negb (JS.truthy (rq_bloque_horario body))
  || negb (JS.truthy (rq_docente body)).

(** [new Date(fecha).getUTCDay()], NaN ([None]) on an invalid date. *)
Definition day_of (f : string) : option Z :=
  option_map getUTCDay (Date_parse f).

(** [day === 0 || day === 6]. *)
Definition is_weekend (day : option Z) : bool :=
  match day with
  | Some d => (d =? 0) || (d =? 6)
  | None => false
  end.

Definition post_reserve (clk : Clock) (body : ReserveBody) (db : Database)
  : Response * Database :=
  if reserve_invalid body then (BadRequest400, db)
  else if is_weekend (day_of (rq_fecha body)) then (BadRequest400, db)
  else
    match insert_reservation clk (rq_ipad_id body) (rq_fecha body)
            (rq_bloque_horario body) (rq_docente body)
            (JS.or_else (rq_curso body) "") db
    with
    | inr (_, db') => (Ok200, db')
    | inl SQLITE_CONSTRAINT_UNIQUE => (Conflict409, db)
    | inl _ => (ServerError500, db)
    end.

End Handlers.

End Single.

(** ** Runs of the server *)

(** A request that writes, with the clock at the time it is served. *)
Inductive Request : Type :=
| Reserve (clk : Clock) (body : Batch.ReserveBody)
| Return (clk : Clock) (body : Batch.ReturnBody)
| ReserveOne (clk : Clock) (body : Single.ReserveBody).

Section Runs.

Context {engine : SQLite} {js : JSDate}.

Definition handle (rq : Request) (db : Database) : Response * Database :=
  match rq with
  | Reserve clk body => Batch.post_reserve clk body db
  | Return clk body => Batch.post_return clk body db
  | ReserveOne clk body => Single.post_reserve clk body db
  end.

(** The database after a sequence of requests, served one at a time. *)
Definition run (rqs : list Request) (db : Database) : Database :=
  fold_left (fun d rq => snd (handle rq d)) rqs db.

End Runs.

(** ** Notions used to state the properties *)

(** Whether a row belongs to one of the devices of a batch on a day. *)
Definition in_batch (ids : list Z) (f : string) (r : Reservation) : bool :=
  existsb (fun i => ipad_id r =? i) ids && (fecha r =? f)%string.

(** The number of rows of [reservations] on a slot. *)
Definition active_on (s : Slot) (db : Database) : nat :=
  List.length (filter (fun r => slot_eqb (slot r) s) (reservations db)).

(** Whether a comparison says "equal". *)
Definition is_Eq (c : comparison) : bool :=
  match c with Eq => true | _ => false end.

Section Counting.

Context {K : Type} (cmp : K -> K -> comparison).

(** The number of rows with key [k]. *)
Definition occurrences (k : K) (keys : list K) : nat :=
  List.length (filter (fun x => is_Eq (cmp x k)) keys).

(** The rows counted for key [k] in a list of groups. *)
Fixpoint count_in (k : K) (gs : list (K * nat)) : nat :=
  match gs with
  | [] => 0
  | (k', n) :: gs' => (if is_Eq (cmp k' k) then n else 0) + count_in k gs'
  end.

(** Groups in strictly increasing key order. *)
Definition key_sorted (gs : list (K * nat)) : Prop :=
  StronglySorted (fun a b => cmp (fst a) (fst b) = Lt) gs.

End Counting.

(** No two rows on one slot. *)
Definition unique_slots (rows : list Reservation) : Prop :=
  NoDup (map slot rows).

(** The rows that a return of the batch leaves. *)
Definition kept (body : Batch.ReturnBody) (db : Database)
  : list Reservation :=
  filter (fun r => negb (in_batch (Batch.rt_ipad_ids body)
                           (Batch.rt_fecha body) r))
         (reservations db).

(** What a text lists: no item for the empty text, else the items with
    [", "] between one and the next. *)
Inductive Listed : list string -> string -> Prop :=
| Listed_none : Listed [] ""
| Listed_one x : Listed [x] x
| Listed_more x y ys s :
    Listed (y :: ys) s -> Listed (x :: y :: ys) (x ++ ", " ++ s).

(** The integer a decimal numeral stands for. *)
Definition read_number (s : string) : option Z :=
  match s with
  | EmptyString => None
  | _ => option_map Z.of_int (NilZero.int_of_string s)
  end.

(** A text that lists the device ids [ids], each as a decimal numeral. *)
Definition lists_ids (ids : list Z) (s : string) : Prop :=
  exists texts, Listed texts s /\ map read_number texts = map Some ids.

(** The DEVOLUCION event written for the blocks released. *)
Definition return_event (clk : Clock) (body : Batch.ReturnBody)
    (db : Database) (blocks : list string) : HistoryRow :=
  mkHistoryRow (seq_history db + 1)
    (JS.or_else (Batch.rt_docente body) "N/A")
    (JS.or_else (Batch.rt_curso body) "N/A")
    (JS.join ", " (map JS.Number_toString (Batch.rt_ipad_ids body)))
    (Batch.rt_fecha body) (JS.join ", " blocks) DEVOLUCION
    (JS.or_else (Batch.rt_novedades body) "")
    (CURRENT_TIMESTAMP clk).

(** A JavaScript engine on date-only ISO strings. *)
Definition iso_engine : JSDate := Build_JSDate Date_parse_iso.

(** ** The remaining handlers and the start-up code *)

(** Whether the ids of a batch are pairwise distinct. *)
Fixpoint distinct (ids : list Z) : bool :=
  match ids with
  | [] => true
  | i :: ids' => negb (existsb (Z.eqb i) ids') && distinct ids'
  end.

(** Whether every slot of a batch is free and no device is named twice:
    the batches whose loop of inserts meets no UNIQUE violation. *)
Definition bookable (body : Batch.ReserveBody) (db : Database) : bool :=
  distinct (Batch.rq_ipad_ids body)
  && forallb
       (fun i => negb (slot_taken (i, Batch.rq_fecha body,
                                   Batch.rq_bloque_horario body)
                         (reservations db)))
       (Batch.rq_ipad_ids body).

(** The rows an accepted batch adds, numbered after the counter [n]. *)
Fixpoint new_rows (clk : Clock) (body : Batch.ReserveBody) (n : Z)
    (ids : list Z) : list Reservation :=
  match ids with
  | [] => []
  | i :: ids' =>
      mkReservation (n + 1) i (Batch.rq_fecha body)
        (Batch.rq_bloque_horario body) (Batch.rq_docente body)
        (JS.or_else (Batch.rq_curso body) "") (CURRENT_TIMESTAMP clk)
      :: new_rows clk body (n + 1) ids'
  end.

(** The RESERVA event written for an accepted batch. *)
Definition reserve_event (clk : Clock) (body : Batch.ReserveBody)
    (db : Database) : HistoryRow :=
  mkHistoryRow (seq_history db + 1) (Batch.rq_docente body)
    (JS.or_else (Batch.rq_curso body) "")
    (JS.join ", " (map JS.Number_toString (Batch.rq_ipad_ids body)))
    (Batch.rq_fecha body) (Batch.rq_bloque_horario body) RESERVA ""
    (CURRENT_TIMESTAMP clk).

(** The Return that gives back the devices of a Reserve on its date. *)
Definition return_of (body : Batch.ReserveBody) (d c n : string)
  : Batch.ReturnBody :=
  Batch.mkReturnBody (Batch.rq_ipad_ids body) (Batch.rq_fecha body) d c n.

(** The rows of [reservations] carry the fields the guards require. *)
Definition row_complete (r : Reservation) : bool :=
  JS.truthy (fecha r) && JS.truthy (bloque_horario r)
  && JS.truthy (docente r).

(** *** GET /api/availability *)

Module Availability.

(** The answer: 400, or [{ reserved: rows }]. *)
Inductive Answer (A : Type) : Type :=
| BadRequest
| Reserved (rows : list A).

Arguments BadRequest {A}.
Arguments Reserved {A} rows.

Section Handlers.

Context {engine : SQLite}.

(** The batch server: [bloque] is optional, and the rows carry the device
    and its block. *)
Definition batch (f b : string) (db : Database) : Answer (Z * string) :=
  if negb (JS.truthy f) then BadRequest
  else
    Reserved
      (map (fun r => (ipad_id r, bloque_horario r))
         (select_order
            (filter
               (fun r =>
                  (fecha r =? f)%string
                  && (if JS.truthy b then (bloque_horario r =? b)%string
                      else true))
               (reservations db)))).

(** The single-device server: [fecha] and [bloque] are both required, and
    the answer lists the device ids. *)
Definition single (f b : string) (db : Database) : Answer Z :=
  if negb (JS.truthy f) || negb (JS.truthy b) then BadRequest
  else
    Reserved
      (map ipad_id
         (select_order
            (filter
               (fun r => (fecha r =? f)%string
                         && (bloque_horario r =? b)%string)
               (reservations db)))).

End Handlers.

End Availability.

(** *** GET /api/reservations of the batch server: the history *)

(** What the listing takes from SQLite: [text LIKE pattern], and the order
    that [ORDER BY timestamp DESC] gives to rows, which leaves open the order
    of rows of equal timestamp. *)
Class SQLiteListing : Type := {
  like : string -> string -> bool;
  order_by_timestamp_desc : list HistoryRow -> list HistoryRow;
  order_by_timestamp_desc_perm :
    forall rows, Permutation (order_by_timestamp_desc rows) rows
}.

Module Listing.

Section Handlers.

Context {engine : SQLite} {listing : SQLiteListing}.

(** The WHERE clause the handler builds from [month], [year] and
    [docente]. *)
Definition selected (month year d : string) (h : HistoryRow) : bool :=
  (if JS.truthy month && JS.truthy year
   then Batch.in_month (JS.padStart 2 "0"%char month) year (h_fecha h)
   else true)
  && (if JS.truthy d then like (h_docente h) ("%" ++ d ++ "%") else true).

Definition get_reservations (month year d : string) (db : Database)
  : list HistoryRow :=
  order_by_timestamp_desc (filter (selected month year d) (history db)).

End Handlers.

End Listing.

(** *** The settings *)

Module Settings.

(** The table [settings]: rows (key, value), [key] the primary key. *)
Definition Table : Type := list (string * string).

(** [SELECT value FROM settings WHERE key = ?], by [.get()]: the first row
    found, if any. *)
Definition select_value (k : string) (t : Table) : option string :=
  option_map snd (find (fun kv => (fst kv =? k)%string) t).

(** [INSERT OR REPLACE INTO settings (key, value) VALUES (?, ?)]: the row
    that holds the key goes, the new row comes. *)
Definition insert_or_replace (k v : string) (t : Table) : Table :=
  (filter (fun kv => negb (fst kv =? k)%string) t ++ [(k, v)])%list.

Definition default_background : string :=
  "https://picsum.photos/id/1015/1920/1080?blur=2".

(** The seeding at start-up: [if (!bgSetting) INSERT ...]. *)
Definition seed_background (t : Table) : Table :=
  match select_value "background_url" t with
  | Some _ => t
  | None => (t ++ [("background_url", default_background)])%list
  end.

(** [GET /api/settings/background]: [{ url: setting?.value || "" }]. *)
Definition get_background (t : Table) : string :=
  match select_value "background_url" t with
  | Some v => JS.or_else v ""
  | None => ""
  end.

(** [POST /api/settings/background], for a body that carries a string
    [url]. *)
Definition post_background (url : string) (t : Table) : Table :=
  insert_or_replace "background_url" url t.

End Settings.

(** *** The seeding of the devices at start-up *)

(** [INSERT INTO ipads (id) VALUES (?)], [id] the primary key. *)
Definition insertIpad (i : Z) : Stmt unit :=
  fun db =>
    if existsb (Z.eqb i) (ipads db) then inl SQLITE_OTHER
    else
      inr (tt, mkDatabase (ipads db ++ [i]) (reservations db) (history db)
                 (seq_reservations db) (seq_history db)).

(** [if (ipadCount.count === 0) for (let i = 1; i <= 60; i++)
    insertIpad.run(i)]. *)
Definition seed_if_empty (db : Database) : SqliteError + Database :=
  if (List.length (ipads db) =? 0)%nat then
    match for_of seed_ipads insertIpad db with
    | inl e => inl e
    | inr (_, db') => inr db'
    end
  else inr db.

(** A database file on which the schema was just created. *)
Definition empty_db : Database := mkDatabase [] [] [] 0 0.

(** The clock a request is served with. *)
Definition clock_of (rq : Request) : Clock :=
  match rq with
  | Reserve clk _ | Return clk _ | ReserveOne clk _ => clk
  end.

(** The events of a request: one for a batch Reserve or a Return that is
    answered 200, none otherwise. *)
Definition writes_event (rq : Request) (answer : Response) : bool :=
  match rq, answer with
  | Reserve _ _, Ok200 => true
  | Return _ _, Ok200 => true
  | _, _ => false
  end.

Definition tipo_of (rq : Request) : Tipo :=
  match rq with
  | Return _ _ => DEVOLUCION
  | _ => RESERVA
  end.

(** Rows that carry their required fields, with distinct ids between 1 and
    the AUTOINCREMENT counter [n]. *)
Definition rows_ok (rows : list Reservation) (n : Z) : Prop :=
  Forall (fun r => row_complete r = true) rows
  /\ 0 <= n
  /\ (forall r, In r rows -> 1 <= id r <= n)
  /\ NoDup (map id rows).

(** Events numbered 1, 2, 3, ... in the order they were written, up to the
    counter [k]. *)
Definition history_ok (hs : list HistoryRow) (k : Z) : Prop :=
  map h_id hs = map Z.of_nat (seq 1 (List.length hs))
  /\ k = Z.of_nat (List.length hs).

Definition well_formed (db : Database) : Prop :=
  rows_ok (reservations db) (seq_reservations db)
  /\ history_ok (history db) (seq_history db).

(** [text LIKE pattern] on ASCII text: [%] stands for any run of
    characters, [_] for one character, and letters match without regard to
    case. *)
Definition lower (c : ascii) : ascii :=
  let n := N_of_ascii c in
  if (65 <=? n)%N && (n <=? 90)%N then ascii_of_N (n + 32) else c.

Fixpoint like_chars (pattern text : list ascii) : bool :=
  match pattern with
  | [] => match text with [] => true | _ :: _ => false end
  | c :: pattern' =>
      if (c =? "%")%char then
        (fix any_run (t : list ascii) : bool :=
           like_chars pattern' t
           || match t with
              | [] => false
              | _ :: t' => any_run t'
              end) text
      else
        match text with
        | [] => false
        | d :: text' =>
            ((c =? "_")%char || (lower c =? lower d)%char)
            && like_chars pattern' text'
        end
  end.

Definition like_ascii (text pattern : string) : bool :=
  like_chars (list_ascii_of_string pattern) (list_ascii_of_string text).

(** An engine for the examples of the listing: rows as they are stored. *)
Definition plain_listing : SQLiteListing :=
  Build_SQLiteListing like_ascii (fun rows => rows)
    (fun rows => Permutation_refl rows).

(** ** Example data *)

Definition ex_clk : Clock :=
  mkClock (mkCivil 2025 3 10) "2025-03-10 12:00:00".

Definition ex_later : Clock :=
  mkClock (mkCivil 2025 3 10) "2025-03-10 12:05:00".

Definition ex_reserve (ids : list Z) (f b : string) : Batch.ReserveBody :=
  Batch.mkReserveBody ids f b "Ana" "5A".

Definition ex_return (ids : list Z) (f : string) : Batch.ReturnBody :=
  Batch.mkReturnBody ids f "" "" "".

(** The database after the batch server has served some Reserve requests
    since start-up. *)
Definition ex_after (bodies : list Batch.ReserveBody) : Database :=
  fold_left (fun db body => snd (Batch.post_reserve ex_clk body db))
            bodies init_db.

(** Device 4 booked for the first block of 2025-03-10. *)
Definition ex_db_4 : Database :=
  ex_after [ex_reserve [4] "2025-03-10" "1st"].

(** Device 7 booked for two blocks of 2025-03-10. *)
Definition ex_db_7 : Database :=
  ex_after [ex_reserve [7] "2025-03-10" "1st";
            ex_reserve [7] "2025-03-10" "2nd"].

(** Devices 1 and 2 with one booking each in March 2025, inserted in either
    order. *)
Definition ex_tie_12 : Database :=
  ex_after [ex_reserve [1] "2025-03-10" "1st";
            ex_reserve [2] "2025-03-11" "2nd"].

Definition ex_tie_21 : Database :=
  ex_after [ex_reserve [2] "2025-03-11" "2nd";
            ex_reserve [1] "2025-03-10" "1st"].


(** * Properties *)

(** ** The engine used to run the handlers on examples *)

Lemma first_of_largest_count_some {K : Type} (gs : list (K * nat)) :
  gs <> [] -> first_of_largest_count gs <> None.
Proof.
  destruct gs as [|a gs]; [congruence|]. intros _.
  cbn [first_of_largest_count].
  destruct (first_of_largest_count gs) as [h|];
    [destruct (_ <? _)%nat|]; discriminate.
Qed.

Lemma first_of_largest_count_largest {K : Type} (gs : list (K * nat)) g :
  first_of_largest_count gs = Some g ->
  In g gs /\ forall h, In h gs -> (snd h <= snd g)%nat.
Proof.
  revert g; induction gs as [|a gs IH]; intros g; cbn [first_of_largest_count].
  - discriminate.
  - destruct (first_of_largest_count gs) as [h|] eqn:E.
    + destruct (IH h eq_refl) as [Hin Hmax].
      destruct (Nat.ltb_spec (snd a) (snd h)); intros [= <-].
      * split; [right; exact Hin|].
        intros x [<- | Hx]; [lia | apply Hmax, Hx].
      * split; [left; reflexivity|].
        intros x [<- | Hx]; [lia | specialize (Hmax x Hx); lia].
    + intros [= <-]. split; [left; reflexivity|].
      intros x [<- | Hx]; [lia|].
      exfalso. revert E. apply first_of_largest_count_some.
      intros ->. destruct Hx.
Qed.

Lemma last_of_largest_count_some {K : Type} (gs : list (K * nat)) :
  gs <> [] -> last_of_largest_count gs <> None.
Proof.
  destruct gs as [|a gs]; [congruence|]. intros _.
  cbn [last_of_largest_count].
  destruct (last_of_largest_count gs) as [h|];
    [destruct (_ <? _)%nat|]; discriminate.
Qed.

Lemma last_of_largest_count_largest {K : Type} (gs : list (K * nat)) g :
  last_of_largest_count gs = Some g ->
  In g gs /\ forall h, In h gs -> (snd h <= snd g)%nat.
Proof.
  revert g; induction gs as [|a gs IH]; intros g; cbn [last_of_largest_count].
  - discriminate.
  - destruct (last_of_largest_count gs) as [h|] eqn:E.
    + destruct (IH h eq_refl) as [Hin Hmax].
      destruct (Nat.ltb_spec (snd h) (snd a)); intros [= <-].
      * split; [left; reflexivity|].
        intros x [<- | Hx]; [lia | specialize (Hmax x Hx); lia].
      * split; [right; exact Hin|].
        intros x [<- | Hx]; [lia | apply Hmax, Hx].
    + intros [= <-]. split; [left; reflexivity|].
      intros x [<- | Hx]; [lia|].
      exfalso. revert E. apply last_of_largest_count_some.
      intros ->. destruct Hx.
Qed.

Lemma rank_empty (K : Type) (q : Ranking) : rank q (@nil (K * nat)) = None.
Proof. destruct q; reflexivity. Qed.

Lemma rank_largest (K : Type) (q : Ranking) (gs : list (K * nat)) g :
  rank q gs = Some g ->
  In g gs /\ forall h, In h gs -> (snd h <= snd g)%nat.
Proof.
  destruct q; cbn [rank];
    [apply first_of_largest_count_largest
    | apply last_of_largest_count_largest
    | apply last_of_largest_count_largest].
Qed.

Lemma rank_some (K : Type) (q : Ranking) (gs : list (K * nat)) :
  gs <> [] -> rank q gs <> None.
Proof.
  destruct q; cbn [rank];
    [apply first_of_largest_count_some
    | apply last_of_largest_count_some
    | apply last_of_largest_count_some].
Qed.

(** SQLite returning rows in rowid order and reading [YYYY-MM-DD] only. *)
Definition rowid_engine : SQLite :=
  Build_SQLite (fun rows => rows) (fun rows => Permutation_refl rows)
    strftime_iso (@rank) rank_empty rank_largest rank_some.


(** ** Slots and the UNIQUE constraint *)

Lemma slot_eqb_eq (s t : Slot) : slot_eqb s t = true <-> s = t.
Proof.
  destruct s as [[i f] b], t as [[i' f'] b']; unfold slot_eqb.
  rewrite !andb_true_iff, Z.eqb_eq, !String.eqb_eq.
  split; [intros [[-> ->] ->]; reflexivity | intros [= -> -> ->]; auto].
Qed.

Lemma slot_eqb_refl (s : Slot) : slot_eqb s s = true.
Proof. apply slot_eqb_eq; reflexivity. Qed.

Lemma slot_taken_In (s : Slot) (rows : list Reservation) :
  slot_taken s rows = true <-> In s (map slot rows).
Proof.
  unfold slot_taken; rewrite existsb_exists, in_map_iff.
  split; intros [r [H1 H2]]; exists r.
  - apply slot_eqb_eq in H2; auto.
  - split; [exact H2 | apply slot_eqb_eq; exact H1].
Qed.

Lemma slot_taken_app (s : Slot) (rows rows' : list Reservation) :
  slot_taken s (rows ++ rows') = slot_taken s rows || slot_taken s rows'.
Proof. apply existsb_app. Qed.

Lemma slot_taken_snoc (s : Slot) (rows : list Reservation) (r : Reservation) :
  slot_taken s (rows ++ [r]) = slot_taken s rows || slot_eqb (slot r) s.
Proof.
  rewrite slot_taken_app; unfold slot_taken at 2; cbn [existsb].
  rewrite orb_false_r; reflexivity.
Qed.

Lemma slot_free_not_In (s : Slot) (rows : list Reservation) :
  slot_taken s rows = false <-> ~ In s (map slot rows).
Proof.
  rewrite <- slot_taken_In; destruct (slot_taken s rows); intuition congruence.
Qed.

(** ** One INSERT *)

Lemma insert_reservation_taken clk i f b d c db :
  slot_taken (i, f, b) (reservations db) = true ->
  insert_reservation clk i f b d c db = inl SQLITE_CONSTRAINT_UNIQUE.
Proof. intros H; unfold insert_reservation; rewrite H; reflexivity. Qed.

Lemma insert_reservation_free clk i f b d c db :
  slot_taken (i, f, b) (reservations db) = false ->
  insert_reservation clk i f b d c db =
  inr (tt, mkDatabase (ipads db)
             (reservations db
                ++ [mkReservation (seq_reservations db + 1) i f b d c
                      (CURRENT_TIMESTAMP clk)])
             (history db) (seq_reservations db + 1) (seq_history db)).
Proof. intros H; unfold insert_reservation; rewrite H; reflexivity. Qed.

Lemma insert_reservation_error clk i f b d c db e :
  insert_reservation clk i f b d c db = inl e ->
  e = SQLITE_CONSTRAINT_UNIQUE.
Proof.
  unfold insert_reservation.
  destruct (slot_taken (i, f, b) (reservations db)); congruence.
Qed.

(** ** The loop of inserts of a batch *)

Section BatchInserts.

Variables (clk : Clock) (body : Batch.ReserveBody).

Let f := Batch.rq_fecha body.
Let b := Batch.rq_bloque_horario body.

(** A slot of the batch that is taken stops the loop. *)
Lemma for_of_insert_conflict ids db :
  (exists i, In i ids /\ slot_taken (i, f, b) (reservations db) = true) ->
  for_of ids (Batch.insertRes clk body) db = inl SQLITE_CONSTRAINT_UNIQUE.
Proof.
  revert db; induction ids as [|j ids IH]; intros db [i [Hin Ht]].
  - destruct Hin.
  - cbn [for_of]; unfold bind, Batch.insertRes.
    destruct (slot_taken (j, f, b) (reservations db)) eqn:Hj.
    + rewrite insert_reservation_taken by exact Hj; reflexivity.
    + rewrite insert_reservation_free by exact Hj.
      apply IH. destruct Hin as [-> | Hin].
      * subst f b; congruence.
      * exists i; split; [exact Hin|].
        cbn [reservations]; rewrite slot_taken_snoc, Ht; reflexivity.
Qed.

(** The only error of the loop is the UNIQUE violation. *)
Lemma for_of_insert_error ids db e :
  for_of ids (Batch.insertRes clk body) db = inl e ->
  e = SQLITE_CONSTRAINT_UNIQUE.
Proof.
  revert db; induction ids as [|j ids IH]; intros db; cbn [for_of].
  - discriminate.
  - unfold bind.
    destruct (Batch.insertRes clk body j db) as [e'|[[] db']] eqn:Hj.
    + intros [= <-]. eapply insert_reservation_error; exact Hj.
    + apply IH.
Qed.

(** What a loop that ends has done: one new row per id, after the old
    rows, and nothing else. *)
Lemma for_of_insert_ok ids db db' :
  for_of ids (Batch.insertRes clk body) db = inr (tt, db') ->
  NoDup ids
  /\ (forall i, In i ids -> slot_taken (i, f, b) (reservations db) = false)
  /\ (exists rows,
        reservations db' = (reservations db ++ rows)%list
        /\ map slot rows = map (fun i => (i, f, b)) ids
        /\ Forall (fun r => docente r = Batch.rq_docente body) rows)
  /\ ipads db' = ipads db
  /\ history db' = history db
  /\ seq_history db' = seq_history db.
Proof.
  revert db; induction ids as [|j ids IH]; intros db; cbn [for_of].
  - intros [= <-]. repeat split; try constructor; try (intros ? []).
    exists []; rewrite app_nil_r; repeat split; constructor.
  - unfold bind, Batch.insertRes.
    destruct (slot_taken (j, f, b) (reservations db)) eqn:Hj.
    + rewrite insert_reservation_taken by exact Hj; discriminate.
    + rewrite insert_reservation_free by exact Hj.
      intros H.
      destruct (IH _ H)
        as (Hnd & Hfree & (rows & Hr & Hs & Hd) & Hi & Hh & Hq).
      cbn [reservations ipads history seq_history] in *.
      assert (Hj' : ~ In j ids).
      { intros Hin. specialize (Hfree j Hin).
        rewrite slot_taken_snoc in Hfree. unfold slot in Hfree.
        cbn [ipad_id fecha bloque_horario] in Hfree.
        rewrite slot_eqb_refl, orb_true_r in Hfree; discriminate. }
      repeat split; auto.
      * constructor; assumption.
      * intros i [<- | Hin]; [exact Hj|].
        specialize (Hfree i Hin). rewrite slot_taken_snoc in Hfree.
        apply orb_false_iff in Hfree; tauto.
      * eexists (_ :: rows); rewrite Hr, <- app_assoc; cbn.
        repeat split; [f_equal; exact Hs|].
        constructor; [reflexivity | exact Hd].
Qed.

(** The loop ends exactly on a batch of distinct ids whose slots are all
    free. *)
Lemma for_of_insert_total ids db :
  NoDup ids ->
  (forall i, In i ids -> slot_taken (i, f, b) (reservations db) = false) ->
  exists db', for_of ids (Batch.insertRes clk body) db = inr (tt, db').
Proof.
  revert db; induction ids as [|j ids IH]; intros db Hnd Hfree; cbn [for_of].
  - eexists; reflexivity.
  - unfold bind, Batch.insertRes.
    rewrite insert_reservation_free by (apply Hfree; left; reflexivity).
    inversion Hnd as [|? ? Hj Hnd']; subst.
    apply IH; [exact Hnd'|].
    intros i Hin. cbn [reservations]. rewrite slot_taken_snoc.
    rewrite (Hfree i) by (right; exact Hin).
    unfold slot; cbn [ipad_id fecha bloque_horario orb].
    destruct (slot_eqb (j, f, b) (i, f, b)) eqn:E; [|exact E].
    apply slot_eqb_eq in E. injection E as ->. contradiction.
Qed.

End BatchInserts.

(** ** POST /api/reserve of the batch server *)

Section BatchReserve.

Variables (clk : Clock) (body : Batch.ReserveBody).

(** The answer is decided by the guard and by the loop of inserts. *)
Lemma post_reserve_cases db :
  (Batch.reserve_invalid body = true
   /\ Batch.post_reserve clk body db = (BadRequest400, db))
  \/ (Batch.reserve_invalid body = false
      /\ for_of (Batch.rq_ipad_ids body) (Batch.insertRes clk body) db
         = inl SQLITE_CONSTRAINT_UNIQUE
      /\ Batch.post_reserve clk body db = (Conflict409, db))
  \/ (Batch.reserve_invalid body = false
      /\ exists db1 db',
           for_of (Batch.rq_ipad_ids body) (Batch.insertRes clk body) db
           = inr (tt, db1)
           /\ Batch.post_reserve clk body db = (Ok200, db')
           /\ reservations db' = reservations db1
           /\ ipads db' = ipads db1
           /\ exists h, history db' = (history db1 ++ [h])%list
                        /\ h_tipo h = RESERVA).
Proof.
  unfold Batch.post_reserve.
  destruct (Batch.reserve_invalid body); [left; auto | right].
  unfold transaction, Batch.reserve_transaction, bind.
  destruct (for_of (Batch.rq_ipad_ids body) (Batch.insertRes clk body) db)
    as [e | [[] db1]] eqn:Hloop.
  - left. rewrite (for_of_insert_error _ _ _ _ _ Hloop) in *. auto.
  - right. split; [reflexivity|].
    unfold insert_history. do 2 eexists.
    split; [reflexivity|]. cbn [reservations ipads history].
    repeat split. eexists; split; reflexivity.
Qed.

Lemma post_reserve_conflict db :
  Batch.reserve_invalid body = false ->
  (exists i, In i (Batch.rq_ipad_ids body)
             /\ slot_taken (i, Batch.rq_fecha body,
                            Batch.rq_bloque_horario body)
                  (reservations db) = true) ->
  Batch.post_reserve clk body db = (Conflict409, db).
Proof.
  intros Hv Hex. unfold Batch.post_reserve; rewrite Hv.
  unfold transaction, Batch.reserve_transaction, bind.
  rewrite for_of_insert_conflict by exact Hex. reflexivity.
Qed.

(** A request that is accepted leaves every slot of its batch taken. *)
Lemma post_reserve_ok_taken db db' :
  Batch.post_reserve clk body db = (Ok200, db') ->
  Batch.reserve_invalid body = false
  /\ forall i, In i (Batch.rq_ipad_ids body) ->
       slot_taken (i, Batch.rq_fecha body, Batch.rq_bloque_horario body)
         (reservations db') = true.
Proof.
  intros H.
  destruct (post_reserve_cases db)
    as [[_ E] | [(_ & _ & E) | (Hv & db1 & db2 & Hloop & E & Hr & _)]];
    rewrite E in H; try discriminate.
  injection H as <-. split; [exact Hv|]. intros i Hin.
  destruct (for_of_insert_ok _ _ _ _ _ Hloop)
    as (_ & _ & (rows & Hrows & Hs & _) & _).
  rewrite Hr, Hrows, slot_taken_app.
  apply orb_true_iff; right. apply slot_taken_In. rewrite Hs.
  apply in_map_iff. exists i; auto.
Qed.

End BatchReserve.

(** A Conflict does not depend on the clock, and changes nothing. *)
Lemma reserve_conflict_retry clk clk' body db db' :
  Batch.post_reserve clk body db = (Conflict409, db') ->
  db' = db /\ Batch.post_reserve clk' body db = (Conflict409, db).
Proof.
  intros H.
  destruct (post_reserve_cases clk body db)
    as [[_ E] | [(Hv & Hloop & E) | (_ & db1 & db2 & _ & E & _)]];
    rewrite E in H; try discriminate.
  injection H as <-. split; [reflexivity|].
  destruct (post_reserve_cases clk' body db)
    as [[Hv' _] | [(_ & _ & E') | (_ & db1 & db2 & Hloop' & _)]];
    [congruence | exact E' | exfalso].
  destruct (for_of_insert_ok _ _ _ _ _ Hloop') as (Hnd & Hfree & _).
  destruct (for_of_insert_total clk body _ db Hnd Hfree) as [db3 Hok].
  congruence.
Qed.

(** ** Lists, filters and the set of released blocks *)

Lemma filter_all {A} (p : A -> bool) (l : list A) :
  (forall x, In x l -> p x = true) -> filter p l = l.
Proof.
  induction l as [|a l IH]; intros H; cbn; [reflexivity|].
  rewrite (H a) by (left; reflexivity).
  rewrite IH; [reflexivity | intros x Hx; apply H; right; exact Hx].
Qed.

Lemma filter_none {A} (p : A -> bool) (l : list A) :
  (forall x, In x l -> p x = false) -> filter p l = [].
Proof.
  induction l as [|a l IH]; intros H; cbn; [reflexivity|].
  rewrite (H a) by (left; reflexivity).
  apply IH. intros x Hx; apply H; right; exact Hx.
Qed.

Lemma filter_filter {A} (p q : A -> bool) (l : list A) :
  filter p (filter q l) = filter (fun x => q x && p x) l.
Proof.
  induction l as [|a l IH]; cbn; [reflexivity|].
  destruct (q a); cbn; [destruct (p a)|]; rewrite IH; reflexivity.
Qed.

Lemma filter_none_negb {A} (p : A -> bool) (l : list A) :
  filter p l = [] -> filter (fun x => negb (p x)) l = l.
Proof.
  intros H. apply filter_all. intros x Hx.
  destruct (p x) eqn:E; [|reflexivity].
  assert (Hin : In x (filter p l)) by (apply filter_In; auto).
  rewrite H in Hin; destruct Hin.
Qed.

Lemma set_reservations_same db : set_reservations db (reservations db) = db.
Proof. destruct db; reflexivity. Qed.

Lemma Set_add_In (s : list string) (x y : string) :
  In y (JS.Set_add s x) <-> In y s \/ y = x.
Proof.
  unfold JS.Set_add.
  destruct (existsb (String.eqb x) s) eqn:E.
  - apply existsb_exists in E. destruct E as [z [Hz Hxz]].
    apply String.eqb_eq in Hxz; subst z.
    split; [auto | intros [H | ->]; assumption].
  - rewrite in_app_iff; cbn. intuition.
Qed.

Lemma Set_add_NoDup (s : list string) (x : string) :
  NoDup s -> NoDup (JS.Set_add s x).
Proof.
  intros H. unfold JS.Set_add.
  destruct (existsb (String.eqb x) s) eqn:E; [exact H|].
  apply NoDup_app; [exact H | repeat constructor; intros [] |].
  intros y Hy [<- | []].
  assert (existsb (String.eqb x) s = true); [|congruence].
  apply existsb_exists. exists x. split; [exact Hy | apply String.eqb_refl].
Qed.

Lemma fold_Set_add_In (xs s : list string) (y : string) :
  In y (fold_left JS.Set_add xs s) <-> In y s \/ In y xs.
Proof.
  revert s; induction xs as [|x xs IH]; intros s; cbn.
  - tauto.
  - rewrite IH, Set_add_In. intuition.
Qed.

Lemma fold_Set_add_NoDup (xs s : list string) :
  NoDup s -> NoDup (fold_left JS.Set_add xs s).
Proof.
  revert s; induction xs as [|x xs IH]; intros s H; cbn; [exact H|].
  apply IH, Set_add_NoDup, H.
Qed.

Lemma in_batch_cons i ids f r :
  in_batch (i :: ids) f r = where_ipad_fecha i f r || in_batch ids f r.
Proof.
  unfold in_batch, where_ipad_fecha; cbn [existsb].
  destruct (ipad_id r =? i), (fecha r =? f)%string,
    (existsb (fun i0 => ipad_id r =? i0) ids); reflexivity.
Qed.

Lemma in_batch_spec ids f r :
  in_batch ids f r = true <-> In (ipad_id r) ids /\ fecha r = f.
Proof.
  unfold in_batch. rewrite andb_true_iff, String.eqb_eq, existsb_exists.
  split.
  - intros [[i [Hi E]] Hf]. apply Z.eqb_eq in E; subst i; auto.
  - intros [Hi Hf]. split; [|exact Hf].
    exists (ipad_id r); split; [exact Hi | apply Z.eqb_refl].
Qed.

(** ** The texts of an event *)

Lemma join_Listed xs : Listed xs (JS.join ", " xs).
Proof.
  induction xs as [|x [|y ys] IH]; try constructor. exact IH.
Qed.

Lemma read_number_toString n : read_number (JS.Number_toString n) = Some n.
Proof.
  unfold read_number, JS.Number_toString.
  assert (Hn : Z.to_int n <> Decimal.Pos Decimal.Nil
               /\ Z.to_int n <> Decimal.Neg Decimal.Nil).
  { destruct n as [|p|p]; cbn; split; try discriminate;
      intros E; injection E as E;
      apply (DecimalPos.Unsigned.to_uint_nonnil p E). }
  destruct Hn as [H1 H2].
  destruct (NilZero.string_of_int (Z.to_int n)) eqn:E.
  - exfalso. destruct (Z.to_int n) as [d|d]; cbn in E.
    + destruct d; try discriminate; congruence.
    + discriminate.
  - rewrite <- E, (NilZero.isi _ H1 H2). cbn. f_equal. apply DecimalZ.of_to.
Qed.

Lemma join_lists_ids ids :
  lists_ids ids (JS.join ", " (map JS.Number_toString ids)).
Proof.
  exists (map JS.Number_toString ids). split; [apply join_Listed|].
  rewrite map_map. apply map_ext. intros n. apply read_number_toString.
Qed.

(** ** POST /api/return *)

Section BatchReturn.

Context {engine : SQLite}.

(** The blocks that [getBlocks.all(i, f)] returns. *)
Lemma getBlocks_In i f db :
  exists rows,
    Batch.getBlocks i f db = inr (rows, db)
    /\ (forall x, In x rows <->
          exists r, In r (reservations db)
                    /\ where_ipad_fecha i f r = true
                    /\ bloque_horario r = x)
    /\ (rows = [] ->
        filter (where_ipad_fecha i f) (reservations db) = []).
Proof.
  eexists; split; [reflexivity|]. split.
  - intros y. rewrite in_map_iff. split.
    + intros [r [Hb Hr]]. exists r.
      apply (Permutation_in _ (select_order_perm _)) in Hr.
      apply filter_In in Hr. tauto.
    + intros [r (Hr & Hw & Hb)]. exists r. split; [exact Hb|].
      apply (Permutation_in _ (Permutation_sym (select_order_perm _))).
      apply filter_In; auto.
  - intros H. apply map_eq_nil in H.
    apply Permutation_nil.
    rewrite <- H. apply select_order_perm.
Qed.

(** The loop of the transaction: it deletes the rows of the batch on the
    day, and gathers their blocks, each once. *)
Lemma release_spec f ids acc db :
  exists blocks,
    Batch.release f ids acc db
    = inr (blocks,
           set_reservations db
             (filter (fun r => negb (in_batch ids f r)) (reservations db)))
    /\ (NoDup acc -> NoDup blocks)
    /\ (forall x, In x blocks <->
          In x acc
          \/ exists r, In r (reservations db)
                       /\ in_batch ids f r = true
                       /\ bloque_horario r = x).
Proof.
  revert acc db; induction ids as [|i ids IH]; intros acc db.
  - exists acc. cbn [Batch.release]; unfold ret.
    rewrite filter_all by reflexivity. rewrite set_reservations_same.
    split; [reflexivity|]. split; [auto|].
    intros x; split; [auto | intros [H | [r (_ & H & _)]]; [exact H|]].
    discriminate.
  - cbn [Batch.release]; unfold bind.
    destruct (getBlocks_In i f db) as (rows & -> & Hrows & Hnil).
    set (db1 := set_reservations db
                  (filter (fun r => negb (where_ipad_fecha i f r))
                          (reservations db))).
    cbv beta iota.
    match goal with
    | |- exists blocks, ?lhs = _ /\ _ =>
        assert (Hstep : lhs = Batch.release f ids
                                (fold_left JS.Set_add rows acc) db1)
    end.
    { destruct rows as [|x rows]; cbn [List.length Nat.ltb Nat.leb fold_left].
      - subst db1. rewrite filter_none_negb by (apply Hnil; reflexivity).
        rewrite set_reservations_same. reflexivity.
      - reflexivity. }
    rewrite Hstep.
    destruct (IH (fold_left JS.Set_add rows acc) db1)
      as (blocks & -> & Hnd & Hin).
    exists blocks. split; [|split].
    + f_equal. f_equal. subst db1. unfold set_reservations.
      cbn [ipads reservations history seq_reservations seq_history].
      f_equal. rewrite filter_filter. apply filter_ext.
      intros r. rewrite in_batch_cons, negb_orb. reflexivity.
    + intros H. apply Hnd, fold_Set_add_NoDup, H.
    + intros x. rewrite Hin, fold_Set_add_In, Hrows.
      subst db1. cbn [set_reservations reservations].
      split.
      * intros [[H | [r (Hr & Hw & Hb)]] | [r (Hr & Hw & Hb)]].
        -- left; exact H.
        -- right. exists r. rewrite in_batch_cons, Hw. auto.
        -- right. exists r. apply filter_In in Hr.
           rewrite in_batch_cons, Hw, orb_true_r. tauto.
      * intros [H | [r (Hr & Hw & Hb)]]; [auto|].
        rewrite in_batch_cons in Hw.
        destruct (where_ipad_fecha i f r) eqn:E.
        -- left; right. exists r; auto.
        -- right. exists r. split; [|auto].
           apply filter_In. rewrite E. auto.
Qed.

End BatchReturn.

(** ** Grouping does not depend on the order of the rows *)

(** The laws of a comparison that sorts keys. *)
Class KeyOrder {K : Type} (cmp : K -> K -> comparison) : Prop := {
  cmp_eq : forall a b, cmp a b = Eq -> a = b;
  cmp_refl : forall a, cmp a a = Eq;
  cmp_antisym : forall a b, cmp b a = CompOpp (cmp a b);
  cmp_trans : forall a b c, cmp a b = Lt -> cmp b c = Lt -> cmp a c = Lt
}.

#[export] Instance Z_KeyOrder : KeyOrder Z.compare.
Proof.
  split.
  - apply Z.compare_eq.
  - apply Z.compare_refl.
  - intros a b; apply Z.compare_antisym.
  - intros a b c; rewrite !Z.compare_lt_iff; lia.
Qed.

Lemma Ascii_compare_refl (a : ascii) : Ascii.compare a a = Eq.
Proof. unfold Ascii.compare; apply N.compare_refl. Qed.

Lemma Ascii_compare_trans (a b c : ascii) :
  Ascii.compare a b = Lt -> Ascii.compare b c = Lt -> Ascii.compare a c = Lt.
Proof. unfold Ascii.compare; rewrite !N.compare_lt_iff; lia. Qed.

Lemma String_compare_refl (s : string) : String.compare s s = Eq.
Proof.
  induction s as [|a s IH]; cbn; [reflexivity|].
  rewrite Ascii_compare_refl; exact IH.
Qed.

Lemma String_compare_trans (s t u : string) :
  String.compare s t = Lt -> String.compare t u = Lt ->
  String.compare s u = Lt.
Proof.
  revert t u; induction s as [|a s IH]; intros [|b t] [|c u]; cbn;
    try congruence.
  destruct (Ascii.compare a b) eqn:Eab; try discriminate;
    destruct (Ascii.compare b c) eqn:Ebc; try discriminate; intros H1 H2.
  - apply Ascii.compare_eq_iff in Eab, Ebc; subst.
    rewrite Ascii_compare_refl. eapply IH; eassumption.
  - apply Ascii.compare_eq_iff in Eab; subst. rewrite Ebc; reflexivity.
  - apply Ascii.compare_eq_iff in Ebc; subst. rewrite Eab; reflexivity.
  - rewrite (Ascii_compare_trans _ _ _ Eab Ebc); reflexivity.
Qed.

#[export] Instance String_KeyOrder : KeyOrder String.compare.
Proof.
  split.
  - apply String.compare_eq_iff.
  - apply String_compare_refl.
  - intros a b; apply String.compare_antisym.
  - apply String_compare_trans.
Qed.

Section GroupByFacts.

Context {K : Type} (cmp : K -> K -> comparison) {order : KeyOrder cmp}.

Lemma cmp_Gt_Lt a b : cmp a b = Gt -> cmp b a = Lt.
Proof. intros H; rewrite (cmp_antisym a b), H; reflexivity. Qed.

Lemma cmp_Lt_Gt a b : cmp a b = Lt -> cmp b a = Gt.
Proof. intros H; rewrite (cmp_antisym a b), H; reflexivity. Qed.

(** Counting a row for [a] and one for [b] gives the same groups in
    either order. *)
Lemma tally_comm a b gs :
  tally cmp a (tally cmp b gs) = tally cmp b (tally cmp a gs).
Proof.
  induction gs as [|[k n] gs IH]; cbn [tally].
  - destruct (cmp a b) eqn:Eab.
    + apply cmp_eq in Eab; subst. rewrite cmp_refl. reflexivity.
    + rewrite (cmp_Lt_Gt _ _ Eab). reflexivity.
    + rewrite (cmp_Gt_Lt _ _ Eab). reflexivity.
  - destruct (cmp b k) eqn:Ebk, (cmp a k) eqn:Eak; cbn [tally];
      rewrite ?Ebk, ?Eak;
      try (apply cmp_eq in Ebk; subst b);
      try (apply cmp_eq in Eak; subst a);
      rewrite ?cmp_refl, ?Ebk, ?Eak; try reflexivity.
    + rewrite (cmp_Lt_Gt _ _ Eak). reflexivity.
    + rewrite (cmp_Lt_Gt _ _ Ebk). reflexivity.
    + destruct (cmp a b) eqn:Eab.
      * apply cmp_eq in Eab; subst. rewrite cmp_refl. reflexivity.
      * rewrite (cmp_Lt_Gt _ _ Eab). reflexivity.
      * rewrite (cmp_Gt_Lt _ _ Eab). reflexivity.
    + rewrite (cmp_Lt_Gt b a); [reflexivity|].
      eapply cmp_trans; [exact Ebk | apply cmp_Gt_Lt, Eak].
    + rewrite (cmp_Lt_Gt a b); [reflexivity|].
      eapply cmp_trans; [exact Eak | apply cmp_Gt_Lt, Ebk].
    + rewrite IH. reflexivity.
Qed.

Lemma fold_tally_perm (l1 l2 : list K) :
  Permutation l1 l2 ->
  forall gs,
    fold_left (fun gs k => tally cmp k gs) l1 gs
    = fold_left (fun gs k => tally cmp k gs) l2 gs.
Proof.
  induction 1 as [|x l1 l2 _ IH|x y l|l1 l2 l3 _ IH1 _ IH2]; intros gs;
    cbn [fold_left].
  - reflexivity.
  - apply IH.
  - rewrite tally_comm. reflexivity.
  - rewrite IH1. apply IH2.
Qed.

Lemma group_by_count_perm (l1 l2 : list K) :
  Permutation l1 l2 -> group_by_count cmp l1 = group_by_count cmp l2.
Proof. intros H; apply fold_tally_perm, H. Qed.

End GroupByFacts.

(** ** The groups carry the right counts *)

Section Counts.

Context {K : Type} (cmp : K -> K -> comparison) {order : KeyOrder cmp}.

Lemma count_in_tally k k' gs :
  count_in cmp k' (tally cmp k gs)
  = (count_in cmp k' gs + if is_Eq (cmp k k') then 1 else 0)%nat.
Proof.
  induction gs as [|[k0 n0] gs IH]; cbn [tally count_in].
  - lia.
  - destruct (cmp k k0) eqn:E; cbn [count_in].
    + apply cmp_eq in E; subst k0.
      destruct (is_Eq (cmp k k')); lia.
    + lia.
    + rewrite IH. lia.
Qed.

Lemma tally_keys k gs x :
  In x (tally cmp k gs) -> fst x = k \/ In (fst x) (map fst gs).
Proof.
  induction gs as [|[k0 n0] gs IH]; cbn [tally].
  - intros [<- | []]; left; reflexivity.
  - destruct (cmp k k0) eqn:E.
    + intros [<- | H]; right; [left; reflexivity | right; apply in_map, H].
    + intros [<- | [<- | H]];
        [left | right; left | right; right; apply in_map, H]; reflexivity.
    + intros [<- | H]; [right; left; reflexivity|].
      destruct (IH H) as [-> | H']; [left | right; right]; auto.
Qed.

Lemma tally_sorted k gs : key_sorted cmp gs -> key_sorted cmp (tally cmp k gs).
Proof.
  unfold key_sorted.
  induction gs as [|[k0 n0] gs IH]; cbn [tally]; intros H.
  - repeat constructor.
  - inversion H as [|? ? Hs Hall]; subst.
    destruct (cmp k k0) eqn:E.
    + apply cmp_eq in E; subst k0. constructor; assumption.
    + constructor; [exact H|]. constructor; [exact E|].
      rewrite Forall_forall in Hall |- *. intros x Hx.
      eapply cmp_trans; [exact E | apply (Hall x Hx)].
    + constructor; [apply IH, Hs|].
      rewrite Forall_forall in Hall |- *. intros x Hx.
      destruct (tally_keys _ _ _ Hx) as [-> | Hin].
      * rewrite (cmp_antisym k k0), E. reflexivity.
      * apply in_map_iff in Hin. destruct Hin as [y [Ey Hy]].
        specialize (Hall y Hy). cbn [fst] in *. rewrite <- Ey. exact Hall.
Qed.

Lemma count_in_sorted k n gs :
  key_sorted cmp gs -> In (k, n) gs -> count_in cmp k gs = n.
Proof.
  unfold key_sorted.
  induction gs as [|[k0 n0] gs IH]; intros H Hin; [destruct Hin|].
  inversion H as [|? ? Hs Hall]; subst. rewrite Forall_forall in Hall.
  assert (Hrest : forall m, In (k0, m) gs -> False).
  { intros m Hm. specialize (Hall _ Hm). cbn [fst] in Hall.
    rewrite cmp_refl in Hall. discriminate. }
  cbn [count_in]. destruct Hin as [[= -> ->] | Hin].
  - rewrite cmp_refl. cbn [is_Eq].
    assert (count_in cmp k gs = 0%nat); [|lia].
    clear IH H Hs. induction gs as [|[k1 n1] gs IH']; [reflexivity|].
    cbn [count_in]. destruct (cmp k1 k) eqn:E; cbn [is_Eq].
    + apply cmp_eq in E; subst k1. exfalso. apply (Hrest n1). left; reflexivity.
    + apply IH'; [intros m Hm; apply (Hrest m) | intros x Hx; apply Hall];
        right; assumption.
    + apply IH'; [intros m Hm; apply (Hrest m) | intros x Hx; apply Hall];
        right; assumption.
  - destruct (cmp k0 k) eqn:E; cbn [is_Eq].
    + apply cmp_eq in E; subst k0. destruct (Hrest n Hin).
    + apply IH; assumption.
    + apply IH; assumption.
Qed.

Lemma count_in_positive k gs :
  (0 < count_in cmp k gs)%nat -> exists n, In (k, n) gs.
Proof.
  induction gs as [|[k0 n0] gs IH]; cbn [count_in]; [lia|].
  destruct (cmp k0 k) eqn:E; cbn [is_Eq].
  - apply cmp_eq in E; subst k0. intros _. exists n0. left; reflexivity.
  - intros H. destruct (IH H) as [n Hn]. exists n; right; exact Hn.
  - intros H. destruct (IH H) as [n Hn]. exists n; right; exact Hn.
Qed.

Lemma fold_tally_counts keys : forall gs,
  key_sorted cmp gs ->
  key_sorted cmp (fold_left (fun gs k => tally cmp k gs) keys gs)
  /\ forall k, count_in cmp k (fold_left (fun gs k => tally cmp k gs) keys gs)
               = (count_in cmp k gs + occurrences cmp k keys)%nat.
Proof.
  induction keys as [|x keys IH]; intros gs Hs; cbn [fold_left].
  - split; [exact Hs | intros k; unfold occurrences; cbn; lia].
  - destruct (IH _ (tally_sorted x gs Hs)) as [Hs' Hc].
    split; [exact Hs'|]. intros k. rewrite Hc, count_in_tally.
    unfold occurrences. cbn [filter].
    destruct (is_Eq (cmp x k)); cbn [List.length]; lia.
Qed.

(** Each group carries the number of rows of its key, and every key with a
    row has its group. *)
Lemma group_by_count_counts keys :
  (forall k n, In (k, n) (group_by_count cmp keys) -> n = occurrences cmp k keys)
  /\ (forall k, (0 < occurrences cmp k keys)%nat ->
                In (k, occurrences cmp k keys) (group_by_count cmp keys)).
Proof.
  unfold group_by_count.
  destruct (fold_tally_counts keys [] (SSorted_nil _)) as [Hs Hc].
  split.
  - intros k n Hin. rewrite <- (count_in_sorted _ _ _ Hs Hin), Hc. reflexivity.
  - intros k Hpos.
    destruct (count_in_positive k (fold_left (fun gs k => tally cmp k gs) keys []))
      as [n Hn]; [rewrite Hc; exact Hpos|].
    rewrite <- (count_in_sorted _ _ _ Hs Hn) in Hn at 1.
    rewrite Hc in Hn. exact Hn.
Qed.

End Counts.

(** What the device ranking returns: a device with the largest number of
    rows in the month. *)
Lemma most_used_has_largest_count {engine : SQLite} m y db k n :
  Batch.ipadMasUsado_row m y db = Some (k, n) ->
  n = occurrences Z.compare k (map ipad_id (Batch.month_rows m y db))
  /\ forall k', (occurrences Z.compare k'
                   (map ipad_id (Batch.month_rows m y db)) <= n)%nat.
Proof.
  unfold Batch.ipadMasUsado_row. intros H.
  destruct (limit_1_largest _ _ _ _ H) as [Hin Hmax].
  destruct (group_by_count_counts Z.compare
              (map ipad_id (Batch.month_rows m y db))) as [Hc1 Hc2].
  split; [apply Hc1, Hin|]. intros k'.
  destruct (Nat.eq_dec (occurrences Z.compare k'
                          (map ipad_id (Batch.month_rows m y db))) 0) as [E|E].
  - rewrite E; lia.
  - apply (Hmax (k', _)). apply Hc2. lia.
Qed.

Section TopOfRanking.

Context {engine : SQLite} {K : Type} (cmp : K -> K -> comparison)
        {order : KeyOrder cmp}.



End TopOfRanking.

Lemma Permutation_filter {A} (p : A -> bool) (l1 l2 : list A) :
  Permutation l1 l2 -> Permutation (filter p l1) (filter p l2).
Proof.
  induction 1 as [|x l1 l2 _ IH|x y l|l1 l2 l3 _ IH1 _ IH2]; cbn.
  - constructor.
  - destruct (p x); [constructor|]; exact IH.
  - destruct (p x), (p y); try apply perm_swap; apply Permutation_refl.
  - eapply Permutation_trans; eassumption.
Qed.

Lemma filter_map_comm {A B} (f : A -> B) (p : B -> bool) (l : list A) :
  filter p (map f l) = map f (filter (fun x => p (f x)) l).
Proof.
  induction l as [|a l IH]; cbn; [reflexivity|].
  destruct (p (f a)); cbn; rewrite IH; reflexivity.
Qed.

(** ** The answer of POST /api/return *)

Section BatchReturnAnswer.

Context {engine : SQLite}.

Variables (clk : Clock) (body : Batch.ReturnBody).

Lemma post_return_guard db :
  Batch.return_invalid body = true
  \/ JS.lt (Batch.rt_fecha body) (todayStr clk) = true ->
  Batch.post_return clk body db = (BadRequest400, db).
Proof.
  unfold Batch.post_return. intros [-> | H]; [reflexivity|].
  rewrite H. destruct (Batch.return_invalid body); reflexivity.
Qed.

Lemma post_return_valid db :
  Batch.return_invalid body = false ->
  JS.lt (Batch.rt_fecha body) (todayStr clk) = false ->
  exists blocks,
    NoDup blocks
    /\ (forall x, In x blocks <->
          exists r, In r (reservations db)
                    /\ in_batch (Batch.rt_ipad_ids body)
                         (Batch.rt_fecha body) r = true
                    /\ bloque_horario r = x)
    /\ Batch.post_return clk body db =
       match blocks with
       | [] => (NotFound404, set_reservations db (kept body db))
       | _ :: _ =>
           (Ok200,
            mkDatabase (ipads db) (kept body db)
              (history db ++ [return_event clk body db blocks])
              (seq_reservations db) (seq_history db + 1))
       end.
Proof.
  intros Hv Hd. unfold Batch.post_return. rewrite Hv, Hd.
  unfold transaction, Batch.return_transaction, bind.
  destruct (release_spec (Batch.rt_fecha body) (Batch.rt_ipad_ids body)
              [] db) as (blocks & -> & Hnd & Hin).
  exists blocks. split; [apply Hnd; constructor|]. split.
  - intros x. rewrite Hin. cbn [In]. tauto.
  - destruct blocks; reflexivity.
Qed.

(** Whatever the answer, the rows left are rows that were there. *)
Lemma post_return_filter db :
  exists p, reservations (snd (Batch.post_return clk body db))
            = filter p (reservations db).
Proof.
  destruct (Batch.return_invalid body) eqn:Hv;
    [|destruct (JS.lt (Batch.rt_fecha body) (todayStr clk)) eqn:Hd].
  - rewrite post_return_guard by auto.
    exists (fun _ => true). cbn. symmetry; apply filter_all; reflexivity.
  - rewrite post_return_guard by auto.
    exists (fun _ => true). cbn. symmetry; apply filter_all; reflexivity.
  - destruct (post_return_valid db Hv Hd) as (blocks & _ & _ & ->).
    eexists. destruct blocks; cbn; reflexivity.
Qed.

End BatchReturnAnswer.

(** ** The invariant of [reservations] *)

Lemma unique_slots_filter (p : Reservation -> bool) rows :
  unique_slots rows -> unique_slots (filter p rows).
Proof.
  unfold unique_slots. induction rows as [|r rows IH]; cbn; [auto|].
  intros H; inversion H as [|? ? Hr Hrows]; subst.
  destruct (p r); cbn; [constructor|]; auto.
  intros Hin. apply Hr. apply in_map_iff in Hin.
  destruct Hin as [r' [E Hr']]. apply filter_In in Hr'.
  apply in_map_iff; exists r'; tauto.
Qed.

Lemma unique_slots_snoc rows r :
  unique_slots rows -> slot_taken (slot r) rows = false ->
  unique_slots (rows ++ [r]).
Proof.
  unfold unique_slots. intros H Hfree. rewrite map_app.
  apply NoDup_app; [exact H | repeat constructor; intros [] |].
  intros s Hs [<- | []]. apply slot_free_not_In in Hfree. contradiction.
Qed.

Lemma unique_slots_insert clk i f b d c db db' :
  unique_slots (reservations db) ->
  insert_reservation clk i f b d c db = inr (tt, db') ->
  unique_slots (reservations db').
Proof.
  intros H. unfold insert_reservation.
  destruct (slot_taken (i, f, b) (reservations db)) eqn:E; [discriminate|].
  intros [= <-]. cbn [reservations].
  apply unique_slots_snoc; [exact H | exact E].
Qed.

Lemma unique_slots_for_of clk body ids db db' :
  unique_slots (reservations db) ->
  for_of ids (Batch.insertRes clk body) db = inr (tt, db') ->
  unique_slots (reservations db').
Proof.
  revert db; induction ids as [|i ids IH]; intros db H; cbn [for_of].
  - intros [= <-]; exact H.
  - unfold bind.
    destruct (Batch.insertRes clk body i db) as [e|[[] db1]] eqn:E;
      [discriminate|].
    apply IH. eapply unique_slots_insert; eassumption.
Qed.

Lemma unique_slots_active (s : Slot) rows :
  unique_slots rows ->
  (List.length (filter (fun r => slot_eqb (slot r) s) rows) <= 1)%nat.
Proof.
  unfold unique_slots. induction rows as [|r rows IH]; cbn; [lia|].
  intros H; inversion H as [|? ? Hr Hrows]; subst.
  destruct (slot_eqb (slot r) s) eqn:E; [|auto].
  apply slot_eqb_eq in E; subst s. cbn.
  rewrite filter_none; [cbn; lia|].
  intros r' Hr'. destruct (slot_eqb (slot r') (slot r)) eqn:E'; [|reflexivity].
  apply slot_eqb_eq in E'. exfalso; apply Hr.
  rewrite <- E'. apply in_map, Hr'.
Qed.

Section Invariant.

Context {engine : SQLite} {js : JSDate}.

Lemma handle_unique_slots rq db :
  unique_slots (reservations db) ->
  unique_slots (reservations (snd (handle rq db))).
Proof.
  intros H. destruct rq as [clk body | clk body | clk body]; cbn [handle].
  - destruct (post_reserve_cases clk body db)
      as [[_ E] | [(_ & _ & E) | (_ & db1 & db' & Hloop & E & Hr & _)]];
      rewrite E; cbn [snd]; try exact H.
    rewrite Hr. eapply unique_slots_for_of; eassumption.
  - destruct (post_return_filter clk body db) as [p ->].
    apply unique_slots_filter, H.
  - unfold Single.post_reserve.
    destruct (Single.reserve_invalid body); [exact H|].
    destruct (Single.is_weekend _); [exact H|].
    destruct (insert_reservation _ _ _ _ _ _ db) as [[]|[[] db']] eqn:E;
      cbn [snd]; try exact H.
    eapply unique_slots_insert; eassumption.
Qed.

Lemma run_unique_slots rqs db :
  unique_slots (reservations db) ->
  unique_slots (reservations (run rqs db)).
Proof.
  revert db; induction rqs as [|rq rqs IH]; intros db H; cbn; [exact H|].
  apply IH, handle_unique_slots, H.
Qed.

End Invariant.

(** ** Statistics *)

Section StatsFacts.

Context {engine : SQLite}.

Lemma month_rows_none m y db :
  (forall r, In r (reservations db) -> Batch.in_month m y (fecha r) = false) ->
  Batch.month_rows m y db = [].
Proof. intros H. unfold Batch.month_rows. apply filter_none, H. Qed.

(** The rows of a month, seen through a column, depend on the slots
    only. *)
Lemma month_column_slots {K} (col : Reservation -> K) (col' : Slot -> K)
    m y db :
  (forall r, col r = col' (slot r)) ->
  map col (Batch.month_rows m y db)
  = map col' (filter (fun s => Batch.in_month m y (snd (fst s)))
                     (map slot (reservations db))).
Proof.
  intros H. unfold Batch.month_rows.
  rewrite filter_map_comm, map_map. apply map_ext, H.
Qed.

Lemma month_column_perm {K} (col : Reservation -> K) (col' : Slot -> K)
    m y db1 db2 :
  (forall r, col r = col' (slot r)) ->
  Permutation (map slot (reservations db1)) (map slot (reservations db2)) ->
  Permutation (map col (Batch.month_rows m y db1))
              (map col (Batch.month_rows m y db2)).
Proof.
  intros H Hp. rewrite !(month_column_slots col col') by exact H.
  apply Permutation_map, Permutation_filter, Hp.
Qed.

End StatsFacts.

Lemma digit_compare (a b : Z) :
  0 <= a <= 9 -> 0 <= b <= 9 ->
  Ascii.compare (digit a) (digit b) = (a ?= b).
Proof.
  intros Ha Hb.
  assert (Ea : a = 0 \/ a = 1 \/ a = 2 \/ a = 3 \/ a = 4 \/ a = 5 \/ a = 6
               \/ a = 7 \/ a = 8 \/ a = 9) by lia.
  assert (Eb : b = 0 \/ b = 1 \/ b = 2 \/ b = 3 \/ b = 4 \/ b = 5 \/ b = 6
               \/ b = 7 \/ b = 8 \/ b = 9) by lia.
  repeat (destruct Ea as [-> | Ea]); try subst a;
    repeat (destruct Eb as [-> | Eb]); try subst b; reflexivity.
Qed.

Lemma compare_String a s b t :
  String.compare (String a s) (String b t)
  = match Ascii.compare a b with
    | Eq => String.compare s t
    | c => c
    end.
Proof. cbn [String.compare]. destruct (Ascii.compare a b); reflexivity. Qed.


Lemma toISODate_lt (a b : Civil) :
  0 <= year a <= 9999 -> 0 <= month a <= 99 -> 0 <= day a <= 99 ->
  0 <= year b <= 9999 -> 0 <= month b <= 99 -> 0 <= day b <= 99 ->
  JS.lt (toISODate a) (toISODate b) = civil_ltb a b.
Proof.
  destruct a as [ya ma da], b as [yb mb db]; cbn [year month day].
  intros Hya Hma Hda Hyb Hmb Hdb.
  unfold JS.lt, String.ltb, toISODate, pad4, pad2, civil_ltb.
  cbn [year month day append].
  rewrite !compare_String.
  rewrite !digit_compare by (Z.div_mod_to_equations; lia).
  change (Ascii.compare "-" "-") with Eq. cbn [String.compare].
  repeat match goal with
         | |- context [?x ?= ?y] => destruct (Z.compare_spec x y)
         end;
    repeat match goal with
      | |- context [?x <? ?y] => destruct (Z.ltb_spec x y)
      | |- context [?x =? ?y] => destruct (Z.eqb_spec x y)
      end; cbn [orb andb]; try reflexivity; exfalso; Z.div_mod_to_equations; lia.
Qed.

Lemma civil_valid_bounds (d : Civil) :
  civil_valid d = true ->
  0 <= year d <= 9999 /\ 0 <= month d <= 99 /\ 0 <= day d <= 99.
Proof.
  unfold civil_valid, days_in_month. rewrite !andb_true_iff, !Z.leb_le.
  intros (((((? & ?) & ?) & ?) & ?) & Hd).
  destruct (month d =? 2); [destruct (is_leap (year d))|];
    [| |destruct (_ || _)]; lia.
Qed.

(** * The claims *)

(** C1. Whatever sequence of Reserve, Return and single-device Reserve
    requests the server has served since it started on an empty database,
    [reservations] holds at most one row for every slot (device, date,
    block); and an INSERT on a slot that has a row raises the UNIQUE error
    instead of writing. *)
Theorem one_active_reservation_per_slot {engine : SQLite} {js : JSDate} :
  (forall (rqs : list Request) (s : Slot),
      (active_on s (run rqs init_db) <= 1)%nat)
  /\ (forall clk i f b d c db,
         slot_taken (i, f, b) (reservations db) = true ->
         insert_reservation clk i f b d c db = inl SQLITE_CONSTRAINT_UNIQUE).
Proof.
  split.
  - intros rqs s. apply unique_slots_active, run_unique_slots. constructor.
  - intros; apply insert_reservation_taken; assumption.
Qed.

(** C2. A batch Reserve that passes the guard on its body and names a device
    whose slot (device, date, block) has a row already is answered Conflict,
    and the database is the one before the call: no row of the batch in
    [reservations], no row added to [history]. *)
Theorem reserve_batch_conflict_is_atomic clk body db :
  Batch.reserve_invalid body = false ->
  (exists i, In i (Batch.rq_ipad_ids body)
             /\ slot_taken (i, Batch.rq_fecha body,
                            Batch.rq_bloque_horario body)
                  (reservations db) = true) ->
  Batch.post_reserve clk body db = (Conflict409, db).
Proof. apply post_reserve_conflict. Qed.

(** The batch 3, 4, 5 on a slot that device 4 holds. *)
Lemma reserve_batch_conflict_is_atomic_witness :
  Batch.post_reserve ex_later (ex_reserve [3; 4; 5] "2025-03-10" "1st") ex_db_4
  = (Conflict409, ex_db_4).
Proof.
  apply reserve_batch_conflict_is_atomic.
  - reflexivity.
  - exists 4. split; [right; left; reflexivity | reflexivity].
Defined.

(** The example of the specification: devices 3, 4 and 5 are asked for a
    slot that device 4 holds; 3 and 5 stay free and no event is written. *)
Example reserve_3_4_5 :
  let (answer, db') :=
    Batch.post_reserve ex_later (ex_reserve [3; 4; 5] "2025-03-10" "1st")
      ex_db_4 in
  answer = Conflict409
  /\ slot_taken (3, "2025-03-10", "1st") (reservations db') = false
  /\ slot_taken (5, "2025-03-10", "1st") (reservations db') = false
  /\ history db' = history ex_db_4.
Proof. repeat split. Qed.

(** C3. A Return that passes the guards (devices named, date not before
    today) and names a device with a row on that date is answered 200; it
    leaves no row of any named device on that date, whatever the block,
    keeps the other rows, and adds one event to [history]: a DEVOLUCION for
    the date, whose text [ipads] lists the ids of the request as decimal
    numerals and whose text [bloque_horario] lists the blocks of the rows
    deleted, each block once. *)
Theorem return_releases_whole_day {engine : SQLite} clk body db :
  Batch.return_invalid body = false ->
  JS.lt (Batch.rt_fecha body) (todayStr clk) = false ->
  (exists r, In r (reservations db)
             /\ In (ipad_id r) (Batch.rt_ipad_ids body)
             /\ fecha r = Batch.rt_fecha body) ->
  exists db' blocks h,
    Batch.post_return clk body db = (Ok200, db')
    /\ reservations db' = kept body db
    /\ (forall i b, In i (Batch.rt_ipad_ids body) ->
          slot_taken (i, Batch.rt_fecha body, b) (reservations db') = false)
    /\ history db' = (history db ++ [h])%list
    /\ h = return_event clk body db blocks
    /\ h_tipo h = DEVOLUCION
    /\ h_fecha h = Batch.rt_fecha body
    /\ lists_ids (Batch.rt_ipad_ids body) (h_ipads h)
    /\ Listed blocks (h_bloque_horario h)
    /\ NoDup blocks
    /\ (forall x, In x blocks <->
          exists r, In r (reservations db)
                    /\ In (ipad_id r) (Batch.rt_ipad_ids body)
                    /\ fecha r = Batch.rt_fecha body
                    /\ bloque_horario r = x).
Proof.
  intros Hv Hd [r (Hr & Hi & Hf)].
  destruct (post_return_valid clk body db Hv Hd) as (blocks & Hnd & Hin & E).
  assert (Hin' : forall x, In x blocks <->
            exists r, In r (reservations db)
                      /\ In (ipad_id r) (Batch.rt_ipad_ids body)
                      /\ fecha r = Batch.rt_fecha body
                      /\ bloque_horario r = x).
  { intros x. rewrite Hin. split; intros [r' (H1 & H2 & H3)]; exists r'.
    - apply in_batch_spec in H2. tauto.
    - rewrite in_batch_spec. tauto. }
  destruct blocks as [|x blocks].
  - exfalso. apply (proj2 (Hin' (bloque_horario r))). exists r; auto.
  - eexists _, (x :: blocks), _. split; [exact E|].
    cbn [reservations history].
    split; [reflexivity|]. split.
    { intros i b Hi'. apply slot_free_not_In. intros Hs.
      apply in_map_iff in Hs. destruct Hs as [r' [Hs Hr']].
      unfold kept in Hr'. apply filter_In in Hr'. destruct Hr' as [_ Hk].
      apply negb_true_iff in Hk.
      assert (in_batch (Batch.rt_ipad_ids body) (Batch.rt_fecha body) r'
              = true); [|congruence].
      apply in_batch_spec. injection Hs as -> -> _. auto. }
    split; [reflexivity|]. split; [reflexivity|].
    split; [reflexivity|]. split; [reflexivity|].
    split; [apply join_lists_ids|].
    split; [apply join_Listed|].
    split; [exact Hnd | exact Hin'].
Qed.

(** Device 7, booked for two blocks of the day, is returned. *)
Lemma return_releases_whole_day_witness :
  exists db' blocks h,
    Batch.post_return (engine := rowid_engine) ex_later
      (ex_return [7] "2025-03-10") ex_db_7 = (Ok200, db')
    /\ reservations db' = kept (ex_return [7] "2025-03-10") ex_db_7
    /\ (forall i b, In i [7] ->
          slot_taken (i, "2025-03-10", b) (reservations db') = false)
    /\ history db' = (history ex_db_7 ++ [h])%list
    /\ h = return_event ex_later (ex_return [7] "2025-03-10") ex_db_7 blocks
    /\ h_tipo h = DEVOLUCION
    /\ h_fecha h = "2025-03-10"
    /\ lists_ids [7] (h_ipads h)
    /\ Listed blocks (h_bloque_horario h)
    /\ NoDup blocks
    /\ (forall x, In x blocks <->
          exists r, In r (reservations ex_db_7)
                    /\ In (ipad_id r) [7]
                    /\ fecha r = "2025-03-10"
                    /\ bloque_horario r = x).
Proof.
  apply (return_releases_whole_day (engine := rowid_engine) ex_later
           (ex_return [7] "2025-03-10") ex_db_7).
  - reflexivity.
  - reflexivity.
  - eexists. split; [left; reflexivity|]. split; [left|]; reflexivity.
Defined.

(** The example of the specification: device 7 is booked for two blocks of
    2025-03-10 and returned; both blocks are free again and the event lists
    both. *)
Example return_device_7 :
  let (answer, db') :=
    Batch.post_return (engine := rowid_engine) ex_later
      (ex_return [7] "2025-03-10") ex_db_7 in
  answer = Ok200
  /\ reservations db' = []
  /\ map h_bloque_horario (history db') = ["1st"; "2nd"; "1st, 2nd"]
  /\ map h_tipo (history db') = [RESERVA; RESERVA; DEVOLUCION].
Proof. repeat split. Qed.

(** C4. A Return whose date is a calendar day before the server's UTC day,
    both in the years 0 to 9999 and the date written [YYYY-MM-DD], is
    answered 400 whatever the database holds, and the database is left as it
    was. *)
Theorem return_past_date_rejected {engine : SQLite} clk body db (d : Civil) :
  civil_valid d = true ->
  civil_valid (utc_date clk) = true ->
  Batch.rt_fecha body = toISODate d ->
  civil_ltb d (utc_date clk) = true ->
  Batch.post_return clk body db = (BadRequest400, db).
Proof.
  intros Hd Ht Hf Hlt. apply post_return_guard. right.
  rewrite Hf. unfold todayStr.
  apply civil_valid_bounds in Hd, Ht.
  rewrite toISODate_lt by tauto. exact Hlt.
Qed.

(** A return dated 2025-03-09 served on 2025-03-10. *)
Lemma return_past_date_rejected_witness :
  Batch.post_return (engine := rowid_engine) ex_clk
    (ex_return [7] "2025-03-09") ex_db_7 = (BadRequest400, ex_db_7).
Proof.
  apply (return_past_date_rejected (engine := rowid_engine) ex_clk
           (ex_return [7] "2025-03-09") ex_db_7 (mkCivil 2025 3 9));
    reflexivity.
Defined.

(** C5, as the code has it. In the single-device server a Reserve whose
    date parses to a Saturday or a Sunday (UTC) is answered 400 and nothing
    is written; hence a Reserve that is accepted there has a date that falls
    on Monday to Friday whenever it parses. *)
Theorem single_reserve_weekdays_only {js : JSDate} clk body db :
  (forall t, Date_parse (Single.rq_fecha body) = Some t ->
             getUTCDay t = 6 \/ getUTCDay t = 0 ->
             Single.post_reserve clk body db = (BadRequest400, db))
  /\ (forall db' t, Single.post_reserve clk body db = (Ok200, db') ->
                    Date_parse (Single.rq_fecha body) = Some t ->
                    1 <= getUTCDay t <= 5).
Proof.
  unfold Single.post_reserve, Single.day_of. split.
  - intros t -> Hw. cbn [option_map Single.is_weekend].
    replace ((getUTCDay t =? 0) || (getUTCDay t =? 6)) with true
      by (destruct Hw as [-> | ->]; reflexivity).
    destruct (Single.reserve_invalid body); reflexivity.
  - intros db' t H Ht. rewrite Ht in H.
    cbn [option_map Single.is_weekend] in H.
    destruct (Single.reserve_invalid body); [discriminate|].
    destruct ((getUTCDay t =? 0) || (getUTCDay t =? 6)) eqn:E; [discriminate|].
    apply orb_false_iff in E. rewrite !Z.eqb_neq in E.
    assert (0 <= getUTCDay t < 7) by (apply Z.mod_pos_bound; lia). lia.
Qed.

(** 2025-03-08 is a Saturday: the single-device server refuses it. *)
Lemma single_reserve_weekdays_only_witness :
  Single.day_of (js := iso_engine) "2025-03-08" = Some 6
  /\ Single.post_reserve (js := iso_engine) ex_clk
       (Single.mkReserveBody 7 "2025-03-08" "1st" "Ana" "") init_db
     = (BadRequest400, init_db).
Proof.
  split; [reflexivity|].
  eapply (proj1 (single_reserve_weekdays_only (js := iso_engine) ex_clk
                   (Single.mkReserveBody 7 "2025-03-08" "1st" "Ana" "")
                   init_db)).
  - reflexivity.
  - left; reflexivity.
Defined.

(** The batch server accepts the same Saturday. *)
Lemma batch_reserve_accepts_saturday :
  Single.day_of (js := iso_engine) "2025-03-08" = Some 6
  /\ fst (Batch.post_reserve ex_clk (ex_reserve [7] "2025-03-08" "1st")
            init_db) = Ok200
  /\ slot_taken (7, "2025-03-08", "1st")
       (reservations
          (snd (Batch.post_reserve ex_clk (ex_reserve [7] "2025-03-08" "1st")
                  init_db))) = true.
Proof. repeat split. Qed.

(** C6. A Return that passes the guards and names only devices without a
    row on that date is answered 404 and leaves the database as it was:
    nothing deleted, no event added to [history]. *)
Theorem return_without_reservation {engine : SQLite} clk body db :
  Batch.return_invalid body = false ->
  JS.lt (Batch.rt_fecha body) (todayStr clk) = false ->
  (forall r, In r (reservations db) ->
             In (ipad_id r) (Batch.rt_ipad_ids body) ->
             fecha r <> Batch.rt_fecha body) ->
  Batch.post_return clk body db = (NotFound404, db).
Proof.
  intros Hv Hd Hnone.
  destruct (post_return_valid clk body db Hv Hd) as (blocks & _ & Hin & E).
  assert (Hout : forall r, In r (reservations db) ->
            in_batch (Batch.rt_ipad_ids body) (Batch.rt_fecha body) r = false).
  { intros r Hr. destruct (in_batch _ _ r) eqn:Hb; [|reflexivity].
    apply in_batch_spec in Hb. destruct Hb as [Hi Hf].
    exfalso; exact (Hnone r Hr Hi Hf). }
  destruct blocks as [|x blocks].
  - rewrite E. unfold kept. rewrite filter_all.
    + rewrite set_reservations_same. reflexivity.
    + intros r Hr. rewrite (Hout r Hr). reflexivity.
  - exfalso. destruct (proj1 (Hin x) (or_introl eq_refl)) as [r (Hr & Hb & _)].
    rewrite (Hout r Hr) in Hb. discriminate.
Qed.

(** Device 9 has no booking on the day. *)
Lemma return_without_reservation_witness :
  Batch.post_return (engine := rowid_engine) ex_later
    (ex_return [9] "2025-03-10") ex_db_7 = (NotFound404, ex_db_7).
Proof.
  apply (return_without_reservation (engine := rowid_engine)).
  - reflexivity.
  - reflexivity.
  - intros r [<- | [<- | []]] [H | []]; discriminate H.
Defined.

(** C7. When a batch Reserve is accepted, the same body sent again is
    answered Conflict and the database stays the one the first call left;
    and after any Conflict the same body is answered Conflict again, the
    database unchanged. *)
Theorem reserve_twice_conflicts clk clk' body db db1 :
  Batch.post_reserve clk body db = (Ok200, db1) ->
  Batch.post_reserve clk' body db1 = (Conflict409, db1)
  /\ (forall c c' db0 db0',
         Batch.post_reserve c body db0 = (Conflict409, db0') ->
         db0' = db0 /\ Batch.post_reserve c' body db0 = (Conflict409, db0)).
Proof.
  intros H. split.
  - destruct (post_reserve_ok_taken _ _ _ _ H) as [Hv Htaken].
    apply post_reserve_conflict; [exact Hv|].
    unfold Batch.reserve_invalid in Hv.
    destruct (Batch.rq_ipad_ids body) as [|i ids]; [discriminate|].
    exists i. split; [left; reflexivity | apply Htaken; left; reflexivity].
  - intros c c' db0 db0'. apply reserve_conflict_retry.
Qed.

(** The booking of device 4, sent a second time. *)
Lemma reserve_twice_conflicts_witness :
  Batch.post_reserve ex_later (ex_reserve [4] "2025-03-10" "1st") ex_db_4
  = (Conflict409, ex_db_4).
Proof.
  apply (proj1 (reserve_twice_conflicts ex_clk ex_later
                  (ex_reserve [4] "2025-03-10" "1st") init_db ex_db_4
                  eq_refl)).
Defined.

(** C8, as the code has it. For a month without rows in [reservations] the
    statistics answer "N/A" for the most used device, the day of highest
    demand and the most reserved block, and the number 0 for the total. *)
Theorem stats_of_empty_month {engine : SQLite} month year db :
  (forall r, In r (reservations db) ->
             Batch.in_month (JS.padStart 2 "0"%char month) year (fecha r)
             = false) ->
  Batch.get_stats month year db
  = Batch.mkStats (Batch.JNumber 0) Batch.no_data Batch.no_data Batch.no_data.
Proof.
  intros H. unfold Batch.get_stats, Batch.totalReservas,
    Batch.ipadMasUsado_row, Batch.diaMasDemanda_row,
    Batch.bloqueMasReservado_row.
  rewrite (month_rows_none _ _ _ H). cbn [map group_by_count fold_left].
  rewrite !limit_1_empty. reflexivity.
Qed.

(** April 2025 in a database whose bookings are all of March. *)
Lemma stats_of_empty_month_witness :
  Batch.get_stats (engine := rowid_engine) "4" "2025" ex_db_7
  = Batch.mkStats (Batch.JNumber 0) Batch.no_data Batch.no_data Batch.no_data.
Proof.
  apply (stats_of_empty_month (engine := rowid_engine)).
  intros r [<- | [<- | []]]; reflexivity.
Defined.

(** The total of a month without rows is the number 0, not "N/A". *)
Lemma stats_total_of_empty_month_is_zero :
  reservations init_db = []
  /\ Batch.total (Batch.get_stats (engine := rowid_engine) "3" "2025" init_db)
     = Batch.JNumber 0
  /\ Batch.total (Batch.get_stats (engine := rowid_engine) "3" "2025" init_db)
     <> Batch.no_data.
Proof. repeat split. discriminate. Qed.




(** On a tie the engine of the examples reports the lowest device and the
    highest date and block. *)
Example stats_on_a_tie :
  Batch.get_stats (engine := rowid_engine) "3" "2025" ex_tie_12
  = Batch.mkStats (Batch.JNumber 2) (Batch.JNumber 1)
      (Batch.JString "2025-03-11") (Batch.JString "2nd")
  /\ Batch.get_stats (engine := rowid_engine) "3" "2025" ex_tie_21
     = Batch.get_stats (engine := rowid_engine) "3" "2025" ex_tie_12.
Proof. split; reflexivity. Qed.

(** C10, as the code has it. Neither Reserve reads the table [ipads].  For
    a device [i] outside 1..60, which is not one of the seeded devices:
    - the batch server answers 200 and leaves a row for [i] to a request that
      passes the guard on its body, names distinct devices whose slots are
      all free, and names [i], also when [i] is 0;
    - the single-device server, on a body with a date, a block and a
      requester, a date that is not refused as a week-end and a free slot,
      answers 200 and leaves a row for [i] when [i] is not 0, and answers 400
      and writes nothing when [i] is 0, which its guard [!ipad_id] takes for
      an absent id. *)
Theorem reserve_outside_device_pool {js : JSDate} i :
  i < 1 \/ 60 < i ->
  ~ In i seed_ipads
  /\ (forall clk body db,
        Batch.reserve_invalid body = false ->
        NoDup (Batch.rq_ipad_ids body) ->
        In i (Batch.rq_ipad_ids body) ->
        (forall j, In j (Batch.rq_ipad_ids body) ->
           slot_taken (j, Batch.rq_fecha body, Batch.rq_bloque_horario body)
             (reservations db) = false) ->
        exists db' r,
          Batch.post_reserve clk body db = (Ok200, db')
          /\ In r (reservations db')
          /\ slot r = (i, Batch.rq_fecha body, Batch.rq_bloque_horario body)
          /\ docente r = Batch.rq_docente body
          /\ ipads db' = ipads db)
  /\ (forall clk f b d c db,
        JS.truthy f = true -> JS.truthy b = true -> JS.truthy d = true ->
        Single.is_weekend (Single.day_of f) = false ->
        slot_taken (i, f, b) (reservations db) = false ->
        if i =? 0 then
          Single.post_reserve clk (Single.mkReserveBody i f b d c) db
          = (BadRequest400, db)
        else
          exists db' r,
            Single.post_reserve clk (Single.mkReserveBody i f b d c) db
            = (Ok200, db')
            /\ In r (reservations db')
            /\ slot r = (i, f, b)
            /\ docente r = d
            /\ ipads db' = ipads db).
Proof.
  intros Hout. split; [|split].
  - unfold seed_ipads. rewrite in_map_iff. intros [n [<- Hn]].
    apply in_seq in Hn. lia.
  - intros clk body db Hv Hnd Hin Hfree.
    destruct (for_of_insert_total clk body _ db Hnd Hfree) as [db1 Hloop].
    destruct (post_reserve_cases clk body db)
      as [[Hv' _] | [(_ & Hc & _) | (_ & db1' & db' & Hloop' & E & Hr & Hi & _)]];
      try congruence.
    rewrite Hloop in Hloop'. injection Hloop' as <-.
    destruct (for_of_insert_ok _ _ _ _ _ Hloop)
      as (_ & _ & (rows & Hrows & Hs & Hd) & Hip & _).
    assert (Hrow : In (i, Batch.rq_fecha body, Batch.rq_bloque_horario body)
                      (map slot rows)).
    { rewrite Hs. apply in_map_iff. exists i; auto. }
    apply in_map_iff in Hrow. destruct Hrow as [r [Hsr Hr']].
    exists db', r. split; [exact E|]. split; [|split; [exact Hsr|split]].
    + rewrite Hr, Hrows. apply in_or_app; right; exact Hr'.
    + rewrite Forall_forall in Hd. apply Hd, Hr'.
    + congruence.
  - intros clk f b d c db Hf Hb Hd Hw Hfree.
    unfold Single.post_reserve, Single.reserve_invalid.
    cbn [Single.rq_ipad_id Single.rq_fecha Single.rq_bloque_horario
         Single.rq_docente Single.rq_curso].
    destruct (i =? 0); [reflexivity|].
    rewrite Hf, Hb, Hd, Hw. cbn [negb orb].
    rewrite insert_reservation_free by exact Hfree.
    eexists _, _. split; [reflexivity|]. cbn [reservations ipads].
    split; [apply in_or_app; right; left; reflexivity|].
    repeat split.
Qed.

(** Device 61 on an empty database, asked of each server for Monday
    2025-03-10: both book it. *)
Lemma reserve_outside_device_pool_witness :
  ~ In 61 seed_ipads
  /\ (exists db' r,
        Batch.post_reserve ex_clk (ex_reserve [61] "2025-03-10" "1st") init_db
        = (Ok200, db')
        /\ In r (reservations db')
        /\ slot r = (61, "2025-03-10", "1st")
        /\ docente r = "Ana"
        /\ ipads db' = ipads init_db)
  /\ (exists db' r,
        Single.post_reserve (js := iso_engine) ex_clk
          (Single.mkReserveBody 61 "2025-03-10" "1st" "Ana" "") init_db
        = (Ok200, db')
        /\ In r (reservations db')
        /\ slot r = (61, "2025-03-10", "1st")
        /\ docente r = "Ana"
        /\ ipads db' = ipads init_db).
Proof.
  assert (Hout : 61 < 1 \/ 60 < 61) by (right; lia).
  destruct (reserve_outside_device_pool (js := iso_engine) 61 Hout)
    as (Hseed & Hbatch & Hsingle).
  split; [exact Hseed|]. split.
  - apply (Hbatch ex_clk (ex_reserve [61] "2025-03-10" "1st") init_db).
    + reflexivity.
    + repeat constructor. intros [].
    + left; reflexivity.
    + intros j _. reflexivity.
  - apply (Hsingle ex_clk "2025-03-10" "1st" "Ana" "" init_db); reflexivity.
Defined.

(** Device 0 on an empty database, asked of the single-device server for a
    free slot of Monday 2025-03-10: the request is refused and nothing is
    written, while no row holds the slot. *)
Lemma single_reserve_refuses_device_0 :
  slot_taken (0, "2025-03-10", "1st") (reservations init_db) = false
  /\ Single.is_weekend (Single.day_of (js := iso_engine) "2025-03-10")
     = false
  /\ Single.post_reserve (js := iso_engine) ex_clk
       (Single.mkReserveBody 0 "2025-03-10" "1st" "Ana" "") init_db
     = (BadRequest400, init_db).
Proof. repeat split. Qed.

(** The single-device server does not read [ipads] either: past its guards
    (which refuse the falsy id 0 and week-ends) any id is booked on a free
    slot. *)
Lemma single_reserve_ignores_device_pool {js : JSDate} clk body db :
  Single.reserve_invalid body = false ->
  Single.is_weekend (Single.day_of (Single.rq_fecha body)) = false ->
  slot_taken (Single.rq_ipad_id body, Single.rq_fecha body,
              Single.rq_bloque_horario body) (reservations db) = false ->
  exists db',
    Single.post_reserve clk body db = (Ok200, db')
    /\ slot_taken (Single.rq_ipad_id body, Single.rq_fecha body,
                   Single.rq_bloque_horario body) (reservations db') = true
    /\ ipads db' = ipads db.
Proof.
  intros Hv Hw Hfree. unfold Single.post_reserve. rewrite Hv, Hw.
  rewrite insert_reservation_free by exact Hfree.
  eexists. split; [reflexivity|]. cbn [reservations ipads].
  split; [|reflexivity].
  rewrite slot_taken_snoc. unfold slot. cbn [ipad_id fecha bloque_horario].
  rewrite slot_eqb_refl, orb_true_r. reflexivity.
Qed.

Example single_reserve_accepts_61 :
  fst (Single.post_reserve (js := iso_engine) ex_clk
         (Single.mkReserveBody 61 "2025-03-10" "1st" "Ana" "") init_db)
  = Ok200.
Proof. reflexivity. Qed.

(** * Further properties of the handlers *)

(** ** What POST /api/reserve decides *)

Lemma distinct_NoDup (ids : list Z) : distinct ids = true <-> NoDup ids.
Proof.
  induction ids as [|i ids IH]; cbn [distinct].
  - split; [constructor | reflexivity].
  - rewrite andb_true_iff, negb_true_iff, IH. split.
    + intros [Hi Hnd]. constructor; [|exact Hnd].
      intros Hin. assert (existsb (Z.eqb i) ids = true); [|congruence].
      apply existsb_exists. exists i; split; [exact Hin | apply Z.eqb_refl].
    + intros H; inversion H as [|? ? Hi Hnd]; subst. split; [|exact Hnd].
      destruct (existsb (Z.eqb i) ids) eqn:E; [|reflexivity].
      apply existsb_exists in E. destruct E as [j [Hj E]].
      apply Z.eqb_eq in E; subst j. contradiction.
Qed.

Lemma bookable_spec body db :
  bookable body db = true <->
  NoDup (Batch.rq_ipad_ids body)
  /\ forall i, In i (Batch.rq_ipad_ids body) ->
       slot_taken (i, Batch.rq_fecha body, Batch.rq_bloque_horario body)
         (reservations db) = false.
Proof.
  unfold bookable. rewrite andb_true_iff, distinct_NoDup, forallb_forall.
  split; intros [H1 H2]; (split; [exact H1|]); intros i Hi;
    specialize (H2 i Hi); [apply negb_true_iff | apply negb_true_iff];
    exact H2.
Qed.

(** The loop of inserts, in closed form. *)
Lemma for_of_insert_closed clk body ids : forall db,
  for_of ids (Batch.insertRes clk body) db
  = if distinct ids
       && forallb
            (fun i => negb (slot_taken (i, Batch.rq_fecha body,
                                        Batch.rq_bloque_horario body)
                              (reservations db))) ids
    then inr (tt, mkDatabase (ipads db)
                    (reservations db
                       ++ new_rows clk body (seq_reservations db) ids)
                    (history db)
                    (seq_reservations db + Z.of_nat (List.length ids))
                    (seq_history db))
    else inl SQLITE_CONSTRAINT_UNIQUE.
Proof.
  induction ids as [|i ids IH]; intros db.
  - cbn. rewrite app_nil_r, Z.add_0_r. destruct db; reflexivity.
  - cbn [for_of distinct forallb new_rows]. unfold bind, Batch.insertRes.
    destruct (slot_taken (i, Batch.rq_fecha body, Batch.rq_bloque_horario body)
                (reservations db)) eqn:Hi.
    + rewrite insert_reservation_taken by exact Hi.
      cbn [negb andb]. rewrite andb_false_r. reflexivity.
    + rewrite insert_reservation_free by exact Hi. rewrite IH.
      cbn [reservations ipads history seq_reservations seq_history negb andb].
      assert (Hfree :
        forallb
          (fun j => negb (slot_taken (j, Batch.rq_fecha body,
                                      Batch.rq_bloque_horario body)
                            (reservations db
                               ++ [mkReservation (seq_reservations db + 1) i
                                     (Batch.rq_fecha body)
                                     (Batch.rq_bloque_horario body)
                                     (Batch.rq_docente body)
                                     (JS.or_else (Batch.rq_curso body) "")
                                     (CURRENT_TIMESTAMP clk)]))) ids
        = negb (existsb (Z.eqb i) ids)
          && forallb
               (fun j => negb (slot_taken (j, Batch.rq_fecha body,
                                           Batch.rq_bloque_horario body)
                                 (reservations db))) ids).
      { clear IH Hi. induction ids as [|j ids IHl]; [reflexivity|].
        cbn [forallb existsb]. rewrite IHl, slot_taken_snoc.
        unfold slot at 1. cbn [ipad_id fecha bloque_horario].
        assert (E : slot_eqb (i, Batch.rq_fecha body,
                              Batch.rq_bloque_horario body)
                             (j, Batch.rq_fecha body,
                              Batch.rq_bloque_horario body) = (i =? j)).
        { unfold slot_eqb. rewrite !String.eqb_refl, !andb_true_r.
          reflexivity. }
        rewrite E.
        destruct (i =? j), (existsb (Z.eqb i) ids),
          (slot_taken (j, Batch.rq_fecha body, Batch.rq_bloque_horario body)
             (reservations db)); reflexivity. }
      rewrite Hfree. clear IH Hfree.
      destruct (existsb (Z.eqb i) ids), (distinct ids), (forallb _ ids);
        cbn [negb andb]; try reflexivity.
      rewrite <- app_assoc. cbn [app List.length].
      do 3 f_equal. lia.
Qed.

(** X1. The answer and the database that POST /api/reserve leaves, in
    closed form: 400 on a body that fails the guard; otherwise 200 when the
    devices are pairwise distinct and their slots free, with one row per
    device appended in the order of the batch and one RESERVA event; and 409
    otherwise.  A 400 and a 409 leave the database as it was. *)
Theorem post_reserve_decision clk body db :
  Batch.post_reserve clk body db
  = if Batch.reserve_invalid body then (BadRequest400, db)
    else if bookable body db then
      (Ok200,
       mkDatabase (ipads db)
         (reservations db
            ++ new_rows clk body (seq_reservations db)
                 (Batch.rq_ipad_ids body))
         (history db ++ [reserve_event clk body db])
         (seq_reservations db
          + Z.of_nat (List.length (Batch.rq_ipad_ids body)))
         (seq_history db + 1))
    else (Conflict409, db).
Proof.
  unfold Batch.post_reserve, bookable.
  destruct (Batch.reserve_invalid body); [reflexivity|].
  unfold transaction, Batch.reserve_transaction, bind.
  rewrite for_of_insert_closed.
  destruct (distinct _ && forallb _ _); reflexivity.
Qed.

(** X2. A batch that names a device twice is answered Conflict and nothing
    is written, even when every slot it asks for is free: the second insert
    of the device meets the row of the first. *)
Theorem reserve_duplicate_id_conflicts clk body db :
  Batch.reserve_invalid body = false ->
  ~ NoDup (Batch.rq_ipad_ids body) ->
  Batch.post_reserve clk body db = (Conflict409, db).
Proof.
  intros Hv Hdup.
  destruct (post_reserve_cases clk body db)
    as [[Hv' _] | [(_ & _ & E) | (_ & db1 & db' & Hloop & _)]];
    [congruence | exact E | exfalso].
  apply Hdup. apply (for_of_insert_ok _ _ _ _ _ Hloop).
Qed.

Lemma reserve_duplicate_id_conflicts_witness :
  Batch.post_reserve ex_clk (ex_reserve [3; 3] "2025-03-10" "1st") init_db
  = (Conflict409, init_db).
Proof.
  apply reserve_duplicate_id_conflicts.
  - reflexivity.
  - intros H. inversion H as [|? ? Hin _]; subst. apply Hin. left; reflexivity.
Defined.

(** ** What POST /api/return decides *)

Lemma post_return_cases {engine : SQLite} clk body db :
  ((Batch.return_invalid body = true
    \/ JS.lt (Batch.rt_fecha body) (todayStr clk) = true)
   /\ Batch.post_return clk body db = (BadRequest400, db))
  \/ (Batch.return_invalid body = false
      /\ JS.lt (Batch.rt_fecha body) (todayStr clk) = false
      /\ (forall r, In r (reservations db) ->
            in_batch (Batch.rt_ipad_ids body) (Batch.rt_fecha body) r
            = false)
      /\ Batch.post_return clk body db = (NotFound404, db))
  \/ (Batch.return_invalid body = false
      /\ JS.lt (Batch.rt_fecha body) (todayStr clk) = false
      /\ (exists r, In r (reservations db)
                    /\ in_batch (Batch.rt_ipad_ids body)
                         (Batch.rt_fecha body) r = true)
      /\ exists blocks,
           Batch.post_return clk body db
           = (Ok200,
              mkDatabase (ipads db) (kept body db)
                (history db ++ [return_event clk body db blocks])
                (seq_reservations db) (seq_history db + 1))).
Proof.
  destruct (Batch.return_invalid body) eqn:Hv.
  { left. split; [auto | apply post_return_guard; auto]. }
  destruct (JS.lt (Batch.rt_fecha body) (todayStr clk)) eqn:Hd.
  { left. split; [auto | apply post_return_guard; auto]. }
  right.
  destruct (post_return_valid clk body db Hv Hd) as (blocks & _ & Hin & E).
  destruct blocks as [|x blocks].
  - left. repeat split; try reflexivity.
    + intros r Hr. destruct (in_batch _ _ r) eqn:Hb; [|reflexivity].
      exfalso. apply (proj2 (Hin (bloque_horario r))). exists r; auto.
    + rewrite E. unfold kept. rewrite filter_all.
      * rewrite set_reservations_same. reflexivity.
      * intros r Hr. destruct (in_batch _ _ r) eqn:Hb; [|reflexivity].
        exfalso. apply (proj2 (Hin (bloque_horario r))). exists r; auto.
  - right. repeat split; try reflexivity.
    + destruct (proj1 (Hin x) (or_introl eq_refl)) as [r (Hr & Hb & _)].
      exists r; auto.
    + exists (x :: blocks). exact E.
Qed.

(** ** All or nothing *)

(** X3. A request that is not answered 200 leaves the database exactly as it
    was, whichever handler serves it and whatever the reason (400, 404 or
    409): rows, history and counters. *)
Theorem refused_request_changes_nothing {engine : SQLite} {js : JSDate}
    rq db :
  fst (handle rq db) <> Ok200 -> snd (handle rq db) = db.
Proof.
  destruct rq as [clk body | clk body | clk body]; cbn [handle].
  - rewrite post_reserve_decision.
    destruct (Batch.reserve_invalid body); [reflexivity|].
    destruct (bookable body db); [|reflexivity].
    cbn [fst]. congruence.
  - destruct (post_return_cases clk body db)
      as [[_ E] | [(_ & _ & _ & E) | (_ & _ & _ & blocks & E)]];
      rewrite E; cbn [fst snd]; congruence.
  - unfold Single.post_reserve.
    destruct (Single.reserve_invalid body); [reflexivity|].
    destruct (Single.is_weekend _); [reflexivity|].
    destruct (insert_reservation _ _ _ _ _ _ db) as [[]|[[] db']];
      cbn [fst snd]; congruence.
Qed.

Lemma refused_request_changes_nothing_witness :
  snd (handle (engine := rowid_engine) (js := iso_engine)
         (Return ex_clk (ex_return [9] "2025-03-10")) ex_db_7)
  = ex_db_7.
Proof.
  apply (refused_request_changes_nothing (engine := rowid_engine)
           (js := iso_engine)).
  cbv. discriminate.
Defined.

(** ** The history is an append-only log *)

(** X4. A request never rewrites or deletes an event and never touches the
    table of devices.  A batch Reserve or a Return answered 200 appends
    exactly one event, of its own type and with the next id; every other
    request, the Reserve of the single-device server included, leaves the
    history as it was. *)
Theorem handle_history {engine : SQLite} {js : JSDate} rq db :
  ipads (snd (handle rq db)) = ipads db
  /\ if writes_event rq (fst (handle rq db))
     then exists h,
            history (snd (handle rq db)) = (history db ++ [h])%list
            /\ h_tipo h = tipo_of rq
            /\ h_id h = seq_history db + 1
            /\ seq_history (snd (handle rq db)) = seq_history db + 1
     else history (snd (handle rq db)) = history db
          /\ seq_history (snd (handle rq db)) = seq_history db.
Proof.
  destruct rq as [clk body | clk body | clk body]; cbn [handle].
  - rewrite post_reserve_decision.
    destruct (Batch.reserve_invalid body); [cbn; auto|].
    destruct (bookable body db); [|cbn; auto].
    cbn [fst snd writes_event ipads history seq_history].
    split; [reflexivity|]. eexists. repeat split.
  - destruct (post_return_cases clk body db)
      as [[_ E] | [(_ & _ & _ & E) | (_ & _ & _ & blocks & E)]];
      rewrite E; cbn [fst snd writes_event ipads history seq_history]; auto.
    split; [reflexivity|]. eexists. repeat split.
  - unfold Single.post_reserve.
    destruct (Single.reserve_invalid body); [cbn; auto|].
    destruct (Single.is_weekend _); [cbn; auto|].
    unfold insert_reservation.
    destruct (slot_taken _ _); cbn; auto.
Qed.

(** X5. Over any sequence of requests the table of devices stays what it was
    and the history only grows at its end, by at most one event per
    request. *)
Theorem run_history_append_only {engine : SQLite} {js : JSDate} rqs :
  forall db,
    ipads (run rqs db) = ipads db
    /\ exists events,
         history (run rqs db) = (history db ++ events)%list
         /\ (List.length events <= List.length rqs)%nat.
Proof.
  induction rqs as [|rq rqs IH]; intros db; cbn [run fold_left].
  - split; [reflexivity|]. exists []. rewrite app_nil_r. auto.
  - destruct (IH (snd (handle rq db))) as [Hi [events [Hh Hl]]].
    fold (run rqs (snd (handle rq db))).
    destruct (handle_history rq db) as [Hi' Hw].
    split; [congruence|]. rewrite Hh.
    destruct (writes_event rq (fst (handle rq db))).
    + destruct Hw as [h (-> & _)]. exists (h :: events).
      rewrite <- app_assoc. split; [reflexivity | cbn; lia].
    + destruct Hw as [-> _]. exists events. split; [reflexivity | cbn; lia].
Qed.

(** ** What every row and every event looks like *)

Lemma new_rows_complete clk body n ids :
  Batch.reserve_invalid body = false ->
  Forall (fun r => row_complete r = true) (new_rows clk body n ids).
Proof.
  intros Hv. unfold Batch.reserve_invalid in Hv.
  apply orb_false_iff in Hv. destruct Hv as [Hv Hd].
  apply orb_false_iff in Hv. destruct Hv as [Hv Hb].
  apply orb_false_iff in Hv. destruct Hv as [_ Hf].
  apply negb_false_iff in Hd, Hb, Hf.
  revert n; induction ids as [|i ids IH]; intros n; cbn [new_rows];
    constructor; [|apply IH].
  unfold row_complete. cbn [fecha bloque_horario docente].
  rewrite Hd, Hb, Hf. reflexivity.
Qed.

Lemma new_rows_ids clk body ids : forall n,
  (forall r, In r (new_rows clk body n ids) ->
             n < id r <= n + Z.of_nat (List.length ids))
  /\ NoDup (map id (new_rows clk body n ids)).
Proof.
  induction ids as [|i ids IH]; intros n; cbn [new_rows map List.length].
  - split; [intros r [] | constructor].
  - destruct (IH (n + 1)) as [Hb Hnd]. split.
    + intros r [<- | Hr]; [cbn [id]; lia | specialize (Hb r Hr); lia].
    + constructor; [|exact Hnd]. cbn [id]. intros Hin.
      apply in_map_iff in Hin. destruct Hin as [r [E Hr]].
      specialize (Hb r Hr). lia.
Qed.

Lemma filter_keeps_distinct_images {A B : Type} (image : A -> B)
    (keep : A -> bool) (xs : list A) :
  NoDup (map image xs) -> NoDup (map image (filter keep xs)).
Proof.
  intros Hxs. induction xs as [|x xs IHxs]; cbn [filter map]; [constructor|].
  cbn [map] in Hxs. apply NoDup_cons_iff in Hxs. destruct Hxs as [Hx Hxs].
  destruct (keep x); [|exact (IHxs Hxs)].
  cbn [map]. constructor; [|exact (IHxs Hxs)].
  rewrite in_map_iff. intros [y [Ey Hy]]. apply Hx.
  rewrite in_map_iff. exists y. split; [exact Ey|].
  apply filter_In in Hy. exact (proj1 Hy).
Qed.

Lemma rows_ok_app rows rows' n n' :
  rows_ok rows n ->
  Forall (fun r => row_complete r = true) rows' ->
  (forall r, In r rows' -> n < id r <= n') ->
  NoDup (map id rows') ->
  n <= n' ->
  rows_ok (rows ++ rows') n'.
Proof.
  intros (Hc & H0 & Hb & Hnd) Hc' Hb' Hnd' Hle. unfold rows_ok.
  split; [apply Forall_app; auto|]. split; [lia|]. split.
  - intros r Hr. apply in_app_or in Hr. destruct Hr as [Hr | Hr];
      [apply Hb in Hr | apply Hb' in Hr]; lia.
  - rewrite map_app. apply NoDup_app; [exact Hnd | exact Hnd' |].
    intros x Hx Hx'. apply in_map_iff in Hx, Hx'.
    destruct Hx as [r [<- Hr]], Hx' as [r' [E Hr']].
    apply Hb in Hr. apply Hb' in Hr'. lia.
Qed.

Lemma rows_ok_filter (p : Reservation -> bool) rows n :
  rows_ok rows n -> rows_ok (filter p rows) n.
Proof.
  intros (Hc & H0 & Hb & Hnd). unfold rows_ok.
  split; [|split; [exact H0|split]].
  - rewrite Forall_forall in Hc |- *.
    intros r Hr. apply filter_In in Hr. apply Hc, Hr.
  - intros r Hr. apply filter_In in Hr. apply Hb, Hr.
  - apply filter_keeps_distinct_images, Hnd.
Qed.

Lemma history_ok_snoc hs h k :
  history_ok hs k -> h_id h = k + 1 -> history_ok (hs ++ [h]) (k + 1).
Proof.
  intros [Hm Hk] Hh. unfold history_ok.
  rewrite length_app, map_app. cbn [List.length map].
  rewrite seq_app, map_app, <- Hm. cbn [seq map].
  split; [f_equal; f_equal; lia | lia].
Qed.

Lemma handle_well_formed {engine : SQLite} {js : JSDate} rq db :
  well_formed db -> well_formed (snd (handle rq db)).
Proof.
  intros [Hr Hh].
  destruct rq as [clk body | clk body | clk body]; cbn [handle].
  - rewrite post_reserve_decision.
    destruct (Batch.reserve_invalid body) eqn:Hv; [split; assumption|].
    destruct (bookable body db); [|split; assumption].
    destruct (new_rows_ids clk body (Batch.rq_ipad_ids body)
                (seq_reservations db)) as [Hnb Hnn].
    split; cbn [snd reservations history seq_reservations seq_history].
    + apply (rows_ok_app _ _ _ _ Hr); try assumption; [|lia].
      apply new_rows_complete, Hv.
    + apply history_ok_snoc; [exact Hh | reflexivity].
  - destruct (post_return_cases clk body db)
      as [[_ E] | [(_ & _ & _ & E) | (_ & _ & _ & blocks & E)]];
      rewrite E; cbn [snd]; try (split; assumption).
    split; cbn [reservations history seq_reservations seq_history].
    + apply rows_ok_filter, Hr.
    + apply history_ok_snoc; [exact Hh | reflexivity].
  - unfold Single.post_reserve.
    destruct (Single.reserve_invalid body) eqn:Hv; [split; assumption|].
    destruct (Single.is_weekend _); [split; assumption|].
    unfold insert_reservation.
    destruct (slot_taken _ _); [split; assumption|].
    unfold Single.reserve_invalid in Hv.
    apply orb_false_iff in Hv. destruct Hv as [Hv Hd].
    apply orb_false_iff in Hv. destruct Hv as [Hv Hbq].
    apply orb_false_iff in Hv. destruct Hv as [_ Hf].
    apply negb_false_iff in Hd, Hbq, Hf.
    split; cbn [snd reservations history seq_reservations seq_history];
      [|exact Hh].
    apply (rows_ok_app _ _ _ _ Hr).
    + constructor; [|constructor].
      unfold row_complete. cbn [fecha bloque_horario docente].
      rewrite Hd, Hbq, Hf. reflexivity.
    + intros r [<- | []]. cbn [id]. lia.
    + repeat constructor. intros [].
    + lia.
Qed.

(** Every database the server reaches from start-up is well formed. *)
Lemma run_well_formed {engine : SQLite} {js : JSDate} rqs :
  well_formed (run rqs init_db).
Proof.
  assert (H : forall db, well_formed db -> well_formed (run rqs db)).
  { induction rqs as [|rq rqs IH]; intros db Hw; cbn [run fold_left];
      [exact Hw|].
    apply IH, handle_well_formed, Hw. }
  apply H. split; [|split; reflexivity].
  split; [constructor|]. split; [cbn; lia|].
  split; [intros r [] | constructor].
Qed.

(** One request never lowers the AUTOINCREMENT counter, and a row it leaves
    was there before or is numbered after the counter it found. *)
Lemma handle_fresh_ids {engine : SQLite} {js : JSDate} rq db :
  seq_reservations db <= seq_reservations (snd (handle rq db))
  /\ forall r, In r (reservations (snd (handle rq db))) ->
               In r (reservations db) \/ seq_reservations db < id r.
Proof.
  destruct rq as [clk body | clk body | clk body]; cbn [handle].
  - rewrite post_reserve_decision.
    destruct (Batch.reserve_invalid body); [cbn [snd]; split; [lia | auto]|].
    destruct (bookable body db); [|cbn [snd]; split; [lia | auto]].
    cbn [snd reservations seq_reservations]. split; [lia|].
    intros r Hr. apply in_app_or in Hr. destruct Hr as [Hr | Hr]; [auto|].
    right. apply (new_rows_ids clk body (Batch.rq_ipad_ids body)), Hr.
  - destruct (post_return_cases clk body db)
      as [[_ E] | [(_ & _ & _ & E) | (_ & _ & _ & blocks & E)]];
      rewrite E; cbn [snd reservations seq_reservations];
      (split; [lia|]); auto.
    intros r Hr. left. unfold kept in Hr. apply filter_In in Hr. apply Hr.
  - unfold Single.post_reserve.
    destruct (Single.reserve_invalid body); [cbn [snd]; split; [lia | auto]|].
    destruct (Single.is_weekend _); [cbn [snd]; split; [lia | auto]|].
    unfold insert_reservation.
    destruct (slot_taken _ _); [cbn [snd]; split; [lia | auto]|].
    cbn [snd reservations seq_reservations]. split; [lia|].
    intros r Hr. apply in_app_or in Hr.
    destruct Hr as [Hr | [<- | []]]; [auto|]. right. cbn [id]. lia.
Qed.

Lemma run_fresh_ids {engine : SQLite} {js : JSDate} rqs : forall db,
  seq_reservations db <= seq_reservations (run rqs db)
  /\ forall r, In r (reservations (run rqs db)) ->
               In r (reservations db) \/ seq_reservations db < id r.
Proof.
  induction rqs as [|rq rqs IH]; intros db; cbn [run fold_left].
  - split; [lia | auto].
  - destruct (handle_fresh_ids rq db) as [Hle Hrows].
    destruct (IH (snd (handle rq db))) as [Hle' Hrows'].
    split; [unfold run in Hle'; lia|].
    intros r Hr. destruct (Hrows' r Hr) as [Hin | Hlt].
    + apply Hrows, Hin.
    + right. lia.
Qed.

Lemma run_app {engine : SQLite} {js : JSDate} rqs rqs' db :
  run (rqs ++ rqs') db = run rqs' (run rqs db).
Proof. apply fold_left_app. Qed.

Lemma same_id_same_row (rows : list Reservation) r r' :
  NoDup (map id rows) -> In r rows -> In r' rows -> id r = id r' -> r = r'.
Proof.
  induction rows as [|x rows IH]; cbn [map]; intros Hnd Hr Hr' E;
    [destruct Hr|].
  apply NoDup_cons_iff in Hnd. destruct Hnd as [Hx Hnd].
  destruct Hr as [-> | Hr], Hr' as [-> | Hr'].
  - reflexivity.
  - exfalso. apply Hx. rewrite E. apply in_map, Hr'.
  - exfalso. apply Hx. rewrite <- E. apply in_map, Hr.
  - apply IH; assumption.
Qed.

(** X6. Along every run of the server from start-up, take the database
    after some requests and the database after some more.  In the first,
    each row of [reservations] has a date, a block and a requester that are
    not empty, the row ids are pairwise distinct and lie between 1 and the
    AUTOINCREMENT counter, and the events of the history are numbered 1, 2,
    3, ... in the order they were written.  From the first to the second the
    counter does not decrease, and a row of the second was in the first or
    is numbered after the counter of the first.  So a row id is never given
    twice, also after a Return has deleted rows: a row of the second with
    the id of a row of the first is that row. *)
Theorem row_ids_never_reused {engine : SQLite} {js : JSDate} rqs rqs' :
  let before := run rqs init_db in
  let after := run (rqs ++ rqs') init_db in
  well_formed before
  /\ seq_reservations before <= seq_reservations after
  /\ (forall r, In r (reservations after) ->
         In r (reservations before) \/ seq_reservations before < id r)
  /\ (forall r r', In r (reservations before) ->
         In r' (reservations after) -> id r = id r' -> r = r').
Proof.
  intros before after.
  assert (Hw : well_formed before) by apply run_well_formed.
  assert (Hf : seq_reservations before <= seq_reservations after
               /\ forall r, In r (reservations after) ->
                     In r (reservations before)
                     \/ seq_reservations before < id r).
  { unfold after. rewrite run_app. apply run_fresh_ids. }
  destruct Hf as [Hle Hrows].
  split; [exact Hw|]. split; [exact Hle|]. split; [exact Hrows|].
  intros r r' Hr Hr' E.
  destruct Hw as [(_ & _ & Hb & Hnd) _].
  destruct (Hrows r' Hr') as [Hin | Hlt].
  - apply (same_id_same_row (reservations before)); assumption.
  - specialize (Hb r Hr). lia.
Qed.

(** Device 7 is booked, returned and booked again: the second row is
    numbered 2, not 1. *)
Example return_does_not_free_the_id :
  let rqs := [Reserve ex_clk (ex_reserve [7] "2025-03-10" "1st");
              Return ex_clk (ex_return [7] "2025-03-10");
              Reserve ex_clk (ex_reserve [7] "2025-03-10" "1st")] in
  map id (reservations
            (run (engine := rowid_engine) (js := iso_engine) rqs init_db))
  = [2].
Proof. reflexivity. Qed.

(** ** Reserve and Return, one after the other *)

Lemma new_rows_in_batch clk body n ids r :
  In r (new_rows clk body n ids) ->
  In (ipad_id r) ids /\ fecha r = Batch.rq_fecha body.
Proof.
  revert n; induction ids as [|i ids IH]; intros n; cbn [new_rows];
    [intros []|].
  intros [<- | Hr]; [cbn; auto|].
  destruct (IH _ Hr); split; [right|]; assumption.
Qed.

Lemma reserve_guard_fields body :
  Batch.reserve_invalid body = false ->
  Batch.rq_ipad_ids body <> [] /\ JS.truthy (Batch.rq_fecha body) = true.
Proof.
  unfold Batch.reserve_invalid. intros Hv.
  apply orb_false_iff in Hv. destruct Hv as [Hv _].
  apply orb_false_iff in Hv. destruct Hv as [Hv _].
  apply orb_false_iff in Hv. destruct Hv as [Hn Hf].
  apply negb_false_iff in Hf. split; [|exact Hf].
  destruct (Batch.rq_ipad_ids body); [discriminate | congruence].
Qed.

Lemma kept_free (body : Batch.ReturnBody) db i b :
  In i (Batch.rt_ipad_ids body) ->
  slot_taken (i, Batch.rt_fecha body, b) (kept body db) = false.
Proof.
  intros Hi. apply slot_free_not_In. intros Hs.
  apply in_map_iff in Hs. destruct Hs as [r [Hs Hr]].
  unfold kept in Hr. apply filter_In in Hr. destruct Hr as [_ Hk].
  apply negb_true_iff in Hk.
  assert (in_batch (Batch.rt_ipad_ids body) (Batch.rt_fecha body) r = true);
    [|congruence].
  apply in_batch_spec. injection Hs as -> -> _. auto.
Qed.

(** X7. Giving back what was just reserved restores the ledger.  After a
    batch Reserve is accepted, the Return of the same devices on the same
    date (served while the date is not past) is answered 200 and leaves the
    rows the database had before the Reserve, less those of these devices on
    that date; when the devices had none on that date, the rows are exactly
    those of before. *)
Theorem reserve_then_return {engine : SQLite} clk clk' body d c n db db1 :
  Batch.post_reserve clk body db = (Ok200, db1) ->
  JS.lt (Batch.rq_fecha body) (todayStr clk') = false ->
  exists db2,
    Batch.post_return clk' (return_of body d c n) db1 = (Ok200, db2)
    /\ reservations db2 = kept (return_of body d c n) db
    /\ ((forall r, In r (reservations db) ->
           In (ipad_id r) (Batch.rq_ipad_ids body) ->
           fecha r <> Batch.rq_fecha body) ->
        reservations db2 = reservations db).
Proof.
  intros H Hd. rewrite post_reserve_decision in H.
  destruct (Batch.reserve_invalid body) eqn:Hv; [discriminate|].
  destruct (bookable body db); [|discriminate].
  injection H as <-.
  destruct (reserve_guard_fields body Hv) as [Hne Hf].
  set (rb := return_of body d c n).
  set (db1 := mkDatabase _ _ _ _ _).
  assert (Hkept : kept rb db1 = kept rb db).
  { unfold kept, db1. cbn [reservations]. rewrite filter_app.
    rewrite (filter_none _ (new_rows _ _ _ _)); [apply app_nil_r|].
    intros r Hr. apply negb_false_iff, in_batch_spec.
    apply (new_rows_in_batch _ _ _ _ _ Hr). }
  destruct (post_return_cases clk' rb db1)
    as [[[Hi | Hl] _] | [(_ & _ & Hnone & _) | (_ & _ & _ & blocks & E)]].
  - exfalso. unfold Batch.return_invalid, rb, return_of in Hi.
    cbn [Batch.rt_ipad_ids Batch.rt_fecha] in Hi. rewrite Hf in Hi.
    destruct (Batch.rq_ipad_ids body); [congruence | discriminate].
  - exfalso. unfold rb, return_of in Hl. cbn [Batch.rt_fecha] in Hl.
    congruence.
  - exfalso. destruct (Batch.rq_ipad_ids body) as [|i ids] eqn:Ei;
      [congruence|].
    specialize (Hnone (mkReservation (seq_reservations db + 1) i
                         (Batch.rq_fecha body) (Batch.rq_bloque_horario body)
                         (Batch.rq_docente body)
                         (JS.or_else (Batch.rq_curso body) "")
                         (CURRENT_TIMESTAMP clk))).
    assert (Hb : in_batch (Batch.rt_ipad_ids rb) (Batch.rt_fecha rb)
                   (mkReservation (seq_reservations db + 1) i
                      (Batch.rq_fecha body) (Batch.rq_bloque_horario body)
                      (Batch.rq_docente body)
                      (JS.or_else (Batch.rq_curso body) "")
                      (CURRENT_TIMESTAMP clk)) = true).
    { apply in_batch_spec. unfold rb, return_of. cbn. rewrite Ei.
      split; [left|]; reflexivity. }
    rewrite Hnone in Hb; [discriminate|].
    unfold db1. cbn [reservations]. apply in_or_app; right. left; reflexivity.
  - eexists. split; [exact E|]. cbn [reservations].
    split; [exact Hkept|]. intros Hfree. rewrite Hkept.
    unfold kept. apply filter_all. intros r Hr.
    apply negb_true_iff. destruct (in_batch _ _ r) eqn:Hb; [|reflexivity].
    apply in_batch_spec in Hb. destruct Hb as [Hi Hfe].
    exfalso. exact (Hfree r Hr Hi Hfe).
Qed.

Lemma reserve_then_return_witness :
  exists db2,
    Batch.post_return (engine := rowid_engine) ex_later
      (return_of (ex_reserve [4] "2025-03-10" "1st") "" "" "") ex_db_4
    = (Ok200, db2)
    /\ reservations db2
       = kept (return_of (ex_reserve [4] "2025-03-10" "1st") "" "" "") init_db
    /\ ((forall r, In r (reservations init_db) ->
           In (ipad_id r) [4] -> fecha r <> "2025-03-10") ->
        reservations db2 = reservations init_db).
Proof.
  apply (reserve_then_return (engine := rowid_engine) ex_clk ex_later
           (ex_reserve [4] "2025-03-10" "1st") "" "" "" init_db ex_db_4);
    reflexivity.
Defined.

(** X8. A Return answered 200 cannot be repeated: the same Return sent again
    while its date is not past is answered 404 and changes nothing. *)
Theorem return_twice_not_found {engine : SQLite} clk clk' body db db1 :
  Batch.post_return clk body db = (Ok200, db1) ->
  JS.lt (Batch.rt_fecha body) (todayStr clk') = false ->
  Batch.post_return clk' body db1 = (NotFound404, db1).
Proof.
  intros H Hd.
  destruct (post_return_cases clk body db)
    as [[_ E] | [(_ & _ & _ & E) | (Hv & _ & _ & blocks & E)]];
    rewrite E in H; try discriminate.
  injection H as <-.
  set (db1 := mkDatabase _ _ _ _ _).
  destruct (post_return_cases clk' body db1)
    as [[[Hi | Hl] _] | [(_ & _ & _ & E') | (_ & _ & [r [Hr Hb]] & _)]];
    [congruence | congruence | exact E' | exfalso].
  unfold db1, kept in Hr. cbn [reservations] in Hr.
  apply filter_In in Hr. destruct Hr as [_ Hk].
  rewrite Hb in Hk. discriminate.
Qed.

Lemma return_twice_not_found_witness :
  Batch.post_return (engine := rowid_engine) ex_later
    (ex_return [7] "2025-03-10")
    (snd (Batch.post_return (engine := rowid_engine) ex_clk
            (ex_return [7] "2025-03-10") ex_db_7))
  = (NotFound404,
     snd (Batch.post_return (engine := rowid_engine) ex_clk
            (ex_return [7] "2025-03-10") ex_db_7)).
Proof.
  apply (return_twice_not_found (engine := rowid_engine) ex_clk ex_later
           (ex_return [7] "2025-03-10") ex_db_7); reflexivity.
Defined.

(** X9. A Return frees the whole day of its devices: after a Return answered
    200, a batch Reserve on the same date that passes the guard and names
    distinct devices among those returned is accepted, whatever the block. *)
Theorem return_then_reserve {engine : SQLite} clk clk' rbody body db db1 :
  Batch.post_return clk rbody db = (Ok200, db1) ->
  Batch.reserve_invalid body = false ->
  Batch.rq_fecha body = Batch.rt_fecha rbody ->
  NoDup (Batch.rq_ipad_ids body) ->
  incl (Batch.rq_ipad_ids body) (Batch.rt_ipad_ids rbody) ->
  exists db2,
    Batch.post_reserve clk' body db1 = (Ok200, db2)
    /\ forall i, In i (Batch.rq_ipad_ids body) ->
         slot_taken (i, Batch.rq_fecha body, Batch.rq_bloque_horario body)
           (reservations db2) = true.
Proof.
  intros H Hv Hf Hnd Hincl.
  destruct (post_return_cases clk rbody db)
    as [[_ E] | [(_ & _ & _ & E) | (_ & _ & _ & blocks & E)]];
    rewrite E in H; try discriminate.
  injection H as <-.
  set (db1 := mkDatabase _ _ _ _ _).
  assert (Hb : bookable body db1 = true).
  { apply bookable_spec. split; [exact Hnd|]. intros i Hi.
    unfold db1. cbn [reservations]. rewrite Hf.
    apply kept_free, Hincl, Hi. }
  rewrite post_reserve_decision, Hv, Hb.
  eexists. split; [reflexivity|].
  intros i Hi.
  apply (post_reserve_ok_taken clk' body db1); [|exact Hi].
  rewrite post_reserve_decision, Hv, Hb. reflexivity.
Qed.

Lemma return_then_reserve_witness :
  exists db2,
    Batch.post_reserve ex_later (ex_reserve [7] "2025-03-10" "2nd")
      (snd (Batch.post_return (engine := rowid_engine) ex_clk
              (ex_return [7; 9] "2025-03-10") ex_db_7))
    = (Ok200, db2)
    /\ forall i, In i [7] ->
         slot_taken (i, "2025-03-10", "2nd") (reservations db2) = true.
Proof.
  apply (return_then_reserve (engine := rowid_engine) ex_clk ex_later
           (ex_return [7; 9] "2025-03-10")
           (ex_reserve [7] "2025-03-10" "2nd") ex_db_7).
  - reflexivity.
  - reflexivity.
  - reflexivity.
  - repeat constructor. intros [].
  - intros i [<- | []]. left; reflexivity.
Defined.

(** ** GET /api/availability *)

Section AvailabilityFacts.

Context {engine : SQLite}.

Lemma availability_batch_rows f b db :
  JS.truthy f = true ->
  exists rows,
    Availability.batch f b db = Availability.Reserved rows
    /\ forall i k,
         In (i, k) rows <->
         slot_taken (i, f, k) (reservations db) = true
         /\ (JS.truthy b = true -> k = b).
Proof.
  intros Hf. unfold Availability.batch. rewrite Hf. cbn [negb].
  eexists. split; [reflexivity|]. intros i k.
  rewrite in_map_iff, slot_taken_In, in_map_iff. split.
  - intros [r [E Hr]]. injection E as <- <-.
    apply (Permutation_in _ (select_order_perm _)) in Hr.
    apply filter_In in Hr. destruct Hr as [Hr Hp].
    apply andb_true_iff in Hp. destruct Hp as [Hfe Hb].
    apply String.eqb_eq in Hfe. split.
    + exists r. split; [unfold slot; rewrite Hfe; reflexivity | exact Hr].
    + intros Hbt. rewrite Hbt in Hb. apply String.eqb_eq in Hb. exact Hb.
  - intros [[r [E Hr]] Hb]. injection E as <- Hfe <-.
    exists r. split; [reflexivity|].
    apply (Permutation_in _ (Permutation_sym (select_order_perm _))).
    apply filter_In. split; [exact Hr|].
    rewrite Hfe, String.eqb_refl. cbn [andb].
    destruct (JS.truthy b); [|reflexivity].
    rewrite (Hb eq_refl). apply String.eqb_refl.
Qed.

Lemma availability_single_rows f b db :
  JS.truthy f = true -> JS.truthy b = true ->
  exists ids,
    Availability.single f b db = Availability.Reserved ids
    /\ forall i, In i ids <-> slot_taken (i, f, b) (reservations db) = true.
Proof.
  intros Hf Hb. unfold Availability.single. rewrite Hf, Hb. cbn [negb orb].
  eexists. split; [reflexivity|]. intros i.
  rewrite in_map_iff, slot_taken_In, in_map_iff. split.
  - intros [r [<- Hr]].
    apply (Permutation_in _ (select_order_perm _)) in Hr.
    apply filter_In in Hr. destruct Hr as [Hr Hp].
    apply andb_true_iff in Hp. destruct Hp as [Hfe Hbe].
    apply String.eqb_eq in Hfe, Hbe.
    exists r. split; [unfold slot; rewrite Hfe, Hbe; reflexivity | exact Hr].
  - intros [r [E Hr]]. injection E as <- Hfe Hbe.
    exists r. split; [reflexivity|].
    apply (Permutation_in _ (Permutation_sym (select_order_perm _))).
    apply filter_In. split; [exact Hr|].
    rewrite Hfe, Hbe, !String.eqb_refl. reflexivity.
Qed.

Lemma availability_batch_NoDup f b db :
  unique_slots (reservations db) ->
  JS.truthy f = true ->
  exists rows,
    Availability.batch f b db = Availability.Reserved rows /\ NoDup rows.
Proof.
  intros Hu Hf. unfold Availability.batch. rewrite Hf. cbn [negb].
  eexists. split; [reflexivity|].
  set (p := fun r : Reservation => andb _ _).
  apply (Permutation_NoDup
           (Permutation_map _ (Permutation_sym (select_order_perm _)))).
  assert (Hs : NoDup (map slot (filter p (reservations db))))
    by (apply unique_slots_filter, Hu).
  assert (E : map slot (filter p (reservations db))
              = map (fun q : Z * string => (fst q, f, snd q))
                  (map (fun r => (ipad_id r, bloque_horario r))
                     (filter p (reservations db)))).
  { rewrite map_map. apply map_ext_in. intros r Hr.
    apply filter_In in Hr. destruct Hr as [_ Hp]. unfold p in Hp.
    apply andb_true_iff in Hp. destruct Hp as [Hfe _].
    apply String.eqb_eq in Hfe. unfold slot. rewrite Hfe. reflexivity. }
  rewrite E in Hs. exact (NoDup_map_inv _ _ Hs).
Qed.

End AvailabilityFacts.

(** X10. With a date, the availability of the batch server lists the pair
    (device, block) exactly when [reservations] holds a row for that device,
    date and block, and only pairs of the block asked for when a block is
    given; nothing else is listed and no booked slot is left out. *)
Theorem availability_lists_booked_slots {engine : SQLite} f b db :
  JS.truthy f = true ->
  exists rows,
    Availability.batch f b db = Availability.Reserved rows
    /\ forall i k,
         In (i, k) rows <->
         slot_taken (i, f, k) (reservations db) = true
         /\ (JS.truthy b = true -> k = b).
Proof. apply availability_batch_rows. Qed.

Lemma availability_lists_booked_slots_witness :
  exists rows,
    Availability.batch (engine := rowid_engine) "2025-03-10" "" ex_db_7
    = Availability.Reserved rows
    /\ forall i k,
         In (i, k) rows <->
         slot_taken (i, "2025-03-10", k) (reservations ex_db_7) = true
         /\ (JS.truthy "" = true -> k = "").
Proof.
  apply (availability_lists_booked_slots (engine := rowid_engine)).
  reflexivity.
Defined.

(** X11. With a date and a block, the availability of the single-device
    server lists a device exactly when its slot is booked. *)
Theorem single_availability_lists_booked {engine : SQLite} f b db :
  JS.truthy f = true -> JS.truthy b = true ->
  exists ids,
    Availability.single f b db = Availability.Reserved ids
    /\ forall i, In i ids <-> slot_taken (i, f, b) (reservations db) = true.
Proof. apply availability_single_rows. Qed.

Lemma single_availability_lists_booked_witness :
  exists ids,
    Availability.single (engine := rowid_engine) "2025-03-10" "1st" ex_db_7
    = Availability.Reserved ids
    /\ forall i, In i ids <->
         slot_taken (i, "2025-03-10", "1st") (reservations ex_db_7) = true.
Proof.
  apply (single_availability_lists_booked (engine := rowid_engine));
    reflexivity.
Defined.

(** X12. In every database the server reaches from start-up, the
    availability of a date never lists a pair (device, block) twice: a
    client that counts the rows counts the booked slots. *)
Theorem availability_has_no_duplicates {engine : SQLite} {js : JSDate}
    rqs f b :
  JS.truthy f = true ->
  exists rows,
    Availability.batch f b (run rqs init_db) = Availability.Reserved rows
    /\ NoDup rows.
Proof.
  intros Hf. apply availability_batch_NoDup; [|exact Hf].
  apply run_unique_slots. constructor.
Qed.

Lemma availability_has_no_duplicates_witness :
  exists rows,
    Availability.batch (engine := rowid_engine) "2025-03-10" ""
      (run (engine := rowid_engine) (js := iso_engine)
         [Reserve ex_clk (ex_reserve [7] "2025-03-10" "1st");
          Reserve ex_clk (ex_reserve [7; 8] "2025-03-10" "2nd")] init_db)
    = Availability.Reserved rows
    /\ NoDup rows.
Proof.
  apply (availability_has_no_duplicates (engine := rowid_engine)
           (js := iso_engine)).
  reflexivity.
Defined.

(** X13. The availability follows the transactions: after a batch Reserve
    is accepted, the availability of its date and block lists every device
    of the batch; after a Return is answered 200, the availability of its
    date lists none of the devices returned, whatever the block. *)
Theorem availability_after_transactions {engine : SQLite} :
  (forall clk body db db',
      Batch.post_reserve clk body db = (Ok200, db') ->
      exists rows,
        Availability.batch (Batch.rq_fecha body)
          (Batch.rq_bloque_horario body) db' = Availability.Reserved rows
        /\ forall i, In i (Batch.rq_ipad_ids body) ->
                     In (i, Batch.rq_bloque_horario body) rows)
  /\ (forall clk body b db db',
         Batch.post_return clk body db = (Ok200, db') ->
         exists rows,
           Availability.batch (Batch.rt_fecha body) b db'
           = Availability.Reserved rows
           /\ forall i k, In i (Batch.rt_ipad_ids body) ->
                          ~ In (i, k) rows).
Proof.
  split.
  - intros clk body db db' H.
    destruct (post_reserve_ok_taken _ _ _ _ H) as [Hv Ht].
    destruct (reserve_guard_fields body Hv) as [_ Hf].
    destruct (availability_batch_rows (Batch.rq_fecha body)
                (Batch.rq_bloque_horario body) db' Hf) as (rows & E & Hin).
    exists rows. split; [exact E|]. intros i Hi.
    apply Hin. split; [apply Ht, Hi | reflexivity].
  - intros clk body b db db' H.
    destruct (post_return_cases clk body db)
      as [[_ E] | [(_ & _ & _ & E) | (Hv & _ & _ & blocks & E)]];
      rewrite E in H; try discriminate.
    injection H as <-.
    assert (Hf : JS.truthy (Batch.rt_fecha body) = true).
    { unfold Batch.return_invalid in Hv. apply orb_false_iff in Hv.
      destruct Hv as [_ Hf]. apply negb_false_iff in Hf. exact Hf. }
    destruct (availability_batch_rows (Batch.rt_fecha body) b
                (mkDatabase (ipads db) (kept body db)
                   (history db ++ [return_event clk body db blocks])
                   (seq_reservations db) (seq_history db + 1)) Hf)
      as (rows & E' & Hin).
    exists rows. split; [exact E'|]. intros i k Hi Hk.
    apply Hin in Hk. destruct Hk as [Hk _]. cbn [reservations] in Hk.
    rewrite (kept_free body db i k Hi) in Hk. discriminate.
Qed.

(** ** What the statistics answer *)

Section StatsAnswers.

Context {engine : SQLite}.

Lemma occurrences_none {K} (cmp : K -> K -> comparison)
    {order : KeyOrder cmp} (keys : list K) :
  (forall k, occurrences cmp k keys = 0%nat) -> keys = [].
Proof.
  destruct keys as [|x keys]; [reflexivity|]. intros H.
  specialize (H x). unfold occurrences in H. cbn [filter] in H.
  rewrite cmp_refl in H. discriminate.
Qed.

Lemma month_rows_app m y db rows :
  filter (fun r => Batch.in_month m y (fecha r)) (reservations db ++ rows)
  = (Batch.month_rows m y db
     ++ filter (fun r => Batch.in_month m y (fecha r)) rows)%list.
Proof. apply filter_app. Qed.

Lemma new_rows_length clk body n ids :
  List.length (new_rows clk body n ids) = List.length ids.
Proof.
  revert n; induction ids as [|i ids IH]; intros n; cbn; [|rewrite IH];
    reflexivity.
Qed.

Lemma new_rows_month clk body n ids m y :
  filter (fun r => Batch.in_month m y (fecha r)) (new_rows clk body n ids)
  = if Batch.in_month m y (Batch.rq_fecha body)
    then new_rows clk body n ids else [].
Proof.
  revert n; induction ids as [|i ids IH]; intros n; cbn [new_rows filter].
  - destruct (Batch.in_month _ _ _); reflexivity.
  - cbn [fecha]. rewrite IH.
    destruct (Batch.in_month m y (Batch.rq_fecha body)); reflexivity.
Qed.

End StatsAnswers.

(** X14. The most used device of the statistics is a device with the
    largest number of rows in the month.  The answer is a number only for a
    device other than 0; it is "N/A" when the month has no row, and also when
    the device ranked first is device 0, whose id is falsy. *)
Theorem stats_most_used_device {engine : SQLite} month year db :
  let keys :=
    map ipad_id
      (Batch.month_rows (JS.padStart 2 "0"%char month) year db) in
  match Batch.ipadMasUsado (Batch.get_stats month year db) with
  | Batch.JNumber k =>
      k <> 0
      /\ forall k', (occurrences Z.compare k' keys
                     <= occurrences Z.compare k keys)%nat
  | Batch.JString s =>
      s = "N/A"
      /\ (keys = []
          \/ forall k', (occurrences Z.compare k' keys
                         <= occurrences Z.compare 0%Z keys)%nat)
  end.
Proof.
  intros keys. unfold Batch.get_stats. cbn [Batch.ipadMasUsado].
  destruct (Batch.ipadMasUsado_row (JS.padStart 2 "0"%char month) year db)
    as [[k n]|] eqn:E; cbn [Batch.number_or_NA].
  - destruct (most_used_has_largest_count _ _ _ _ _ E) as [Hn Hmax].
    fold keys in Hn, Hmax. rewrite Hn in Hmax.
    destruct (Z.eqb_spec k 0) as [-> | Hk].
    + split; [reflexivity | right; exact Hmax].
    + split; [exact Hk | exact Hmax].
  - split; [reflexivity|]. left.
    unfold Batch.ipadMasUsado_row in E. fold keys in E.
    destruct (group_by_count_counts Z.compare keys) as [_ Hc].
    apply (occurrences_none Z.compare). intros k.
    destruct (occurrences Z.compare k keys) as [|n] eqn:Ek; [reflexivity|].
    exfalso. refine (limit_1_some _ _ _ _ E). intros Hnil.
    specialize (Hc k). rewrite Ek, Hnil in Hc. apply Hc. lia.
Qed.

(** X15. The statistics follow an accepted Reserve: the total of a month
    grows by the number of devices of the batch when the date of the batch
    is of that month, and stays what it was otherwise. *)
Theorem stats_total_after_reserve {engine : SQLite}
    clk body month year db db' :
  Batch.post_reserve clk body db = (Ok200, db') ->
  Batch.total (Batch.get_stats month year db')
  = Batch.JNumber
      (Batch.totalReservas (JS.padStart 2 "0"%char month) year db
       + if Batch.in_month (JS.padStart 2 "0"%char month) year
              (Batch.rq_fecha body)
         then Z.of_nat (List.length (Batch.rq_ipad_ids body))
         else 0).
Proof.
  intros H. rewrite post_reserve_decision in H.
  destruct (Batch.reserve_invalid body); [discriminate|].
  destruct (bookable body db); [|discriminate].
  injection H as <-.
  unfold Batch.get_stats. cbn [Batch.total].
  unfold Batch.totalReservas. unfold Batch.month_rows at 1.
  cbn [reservations]. rewrite month_rows_app, length_app, new_rows_month.
  destruct (Batch.in_month _ _ (Batch.rq_fecha body)).
  - rewrite new_rows_length, Nat2Z.inj_add. reflexivity.
  - cbn [List.length]. rewrite Nat.add_0_r, Z.add_0_r. reflexivity.
Qed.

Lemma stats_total_after_reserve_witness :
  Batch.total (Batch.get_stats (engine := rowid_engine) "3" "2025" ex_db_4)
  = Batch.JNumber
      (Batch.totalReservas (engine := rowid_engine)
         (JS.padStart 2 "0"%char "3") "2025" init_db
       + if Batch.in_month (engine := rowid_engine)
              (JS.padStart 2 "0"%char "3") "2025"
              (Batch.rq_fecha (ex_reserve [4] "2025-03-10" "1st"))
         then Z.of_nat
                (List.length
                   (Batch.rq_ipad_ids (ex_reserve [4] "2025-03-10" "1st")))
         else 0).
Proof.
  apply (stats_total_after_reserve (engine := rowid_engine) ex_clk
           (ex_reserve [4] "2025-03-10" "1st") "3" "2025" init_db ex_db_4).
  reflexivity.
Defined.

(** ** The settings *)

Lemma select_value_replaced k v (t : Settings.Table) :
  Settings.select_value k (Settings.insert_or_replace k v t) = Some v.
Proof.
  unfold Settings.select_value, Settings.insert_or_replace.
  induction t as [|[k' v'] t IH]; cbn [filter app find fst].
  - rewrite String.eqb_refl. reflexivity.
  - destruct (k' =? k)%string eqn:E; cbn [negb]; [exact IH|].
    cbn [app find fst]. rewrite E. exact IH.
Qed.

Lemma or_else_empty (s : string) : JS.or_else s "" = s.
Proof.
  unfold JS.or_else, JS.truthy.
  destruct (String.eqb_spec s ""); cbn [negb]; congruence.
Qed.

Lemma insert_or_replace_keys k v (t : Settings.Table) :
  NoDup (map fst t) -> NoDup (map fst (Settings.insert_or_replace k v t)).
Proof.
  intros H. unfold Settings.insert_or_replace. rewrite map_app.
  apply NoDup_app; [apply filter_keeps_distinct_images, H | repeat constructor; intros []|].
  intros x Hx [<- | []]. apply in_map_iff in Hx.
  destruct Hx as [[k' v'] [E Hin]]. apply filter_In in Hin.
  destruct Hin as [_ Hk]. cbn [fst] in *. subst k'.
  rewrite String.eqb_refl in Hk. discriminate.
Qed.

(** X16. The background round trip: after a POST of a url, the GET answers
    that url, whatever the table held before; so of several POSTs the last
    one wins. *)
Theorem background_round_trip url (t : Settings.Table) :
  Settings.get_background (Settings.post_background url t) = url.
Proof.
  unfold Settings.get_background, Settings.post_background.
  rewrite select_value_replaced. apply or_else_empty.
Qed.

(** X17. The seeding of the default background at start-up never replaces a
    setting: a table that has the key is left as it is, so a background that
    was posted survives a restart, and only a table without the key gets the
    default.  POST and seeding keep the keys of the table pairwise
    distinct. *)
Theorem background_seed_keeps_setting url (t : Settings.Table) :
  Settings.seed_background (Settings.post_background url t)
  = Settings.post_background url t
  /\ (Settings.select_value "background_url" t = None ->
      Settings.get_background (Settings.seed_background t)
      = Settings.default_background)
  /\ (NoDup (map fst t) ->
      NoDup (map fst (Settings.post_background url t))
      /\ NoDup (map fst (Settings.seed_background t))).
Proof.
  split; [|split].
  - unfold Settings.seed_background, Settings.post_background.
    rewrite select_value_replaced. reflexivity.
  - intros Hnone. unfold Settings.seed_background. rewrite Hnone.
    unfold Settings.get_background, Settings.select_value in *.
    assert (E : find (fun kv : string * string =>
                        (fst kv =? "background_url")%string)
                  (t ++ [("background_url", Settings.default_background)])
                = Some ("background_url", Settings.default_background)).
    { clear -Hnone. induction t as [|[k v] t IH]; cbn [app find fst] in *.
      - reflexivity.
      - destruct (k =? "background_url")%string; [discriminate|].
        apply IH, Hnone. }
    rewrite E. reflexivity.
  - intros Hnd. split; [apply insert_or_replace_keys, Hnd|].
    unfold Settings.seed_background.
    destruct (Settings.select_value "background_url" t) eqn:E; [exact Hnd|].
    rewrite map_app. apply NoDup_app; [exact Hnd | repeat constructor; intros []|].
    intros x Hx [<- | []]. apply in_map_iff in Hx.
    destruct Hx as [[k v] [Ek Hin]]. cbn [fst] in Ek. subst k.
    unfold Settings.select_value in E.
    destruct (find _ t) as [kv|] eqn:Ef; [discriminate|].
    apply (find_none _ _ Ef) in Hin. cbn [fst] in Hin. discriminate.
Qed.

(** ** The seeding of the devices *)

Lemma seed_ipads_spec (i : Z) : In i seed_ipads <-> 1 <= i <= 60.
Proof.
  unfold seed_ipads. rewrite in_map_iff. split.
  - intros [n [<- Hn]]. apply in_seq in Hn. lia.
  - intros H. exists (Z.to_nat i). split; [lia|]. apply in_seq. lia.
Qed.

(** X18. Start-up seeds the devices once.  On a database without devices it
    inserts the ids 1 to 60, each once, without meeting the primary key, and
    touches nothing else; on a database that has devices it changes nothing;
    hence a restart after a start-up changes nothing. *)
Theorem seed_if_empty_once db :
  exists db',
    seed_if_empty db = inr db'
    /\ (ipads db = [] ->
        db' = mkDatabase seed_ipads (reservations db) (history db)
                (seq_reservations db) (seq_history db))
    /\ (ipads db <> [] -> db' = db)
    /\ seed_if_empty db' = inr db'
    /\ NoDup seed_ipads
    /\ forall i, In i seed_ipads <-> 1 <= i <= 60.
Proof.
  assert (Hnd : NoDup seed_ipads).
  { apply distinct_NoDup. vm_compute. reflexivity. }
  destruct db as [ip rows hs n k]. destruct ip as [|i ip].
  - eexists. split; [vm_compute; reflexivity|].
    split; [intros _; reflexivity|].
    split; [intros H; exfalso; apply H; reflexivity|].
    split; [reflexivity|]. split; [exact Hnd | exact seed_ipads_spec].
  - exists (mkDatabase (i :: ip) rows hs n k).
    split; [reflexivity|]. split; [discriminate|].
    split; [reflexivity|]. split; [reflexivity|].
    split; [exact Hnd | exact seed_ipads_spec].
Qed.

(** ** GET /api/reservations: the history listing *)

(** X19. The date filter of the history listing needs both [month] and
    [year]: with only one of them, or none, and without [docente], the
    listing returns every event of the history, each once. *)
Theorem listing_without_both_month_and_year
    {engine : SQLite} {listing : SQLiteListing} month year db :
  JS.truthy month && JS.truthy year = false ->
  Permutation (Listing.get_reservations month year "" db) (history db).
Proof.
  intros H. unfold Listing.get_reservations.
  rewrite order_by_timestamp_desc_perm.
  rewrite filter_all; [reflexivity|].
  intros h _. unfold Listing.selected. rewrite H. reflexivity.
Qed.

Lemma listing_without_both_month_and_year_witness :
  Permutation
    (Listing.get_reservations (engine := rowid_engine)
       (listing := plain_listing) "3" "" "" ex_db_7)
    (history ex_db_7).
Proof.
  apply (listing_without_both_month_and_year (engine := rowid_engine)
           (listing := plain_listing)).
  reflexivity.
Defined.


(** ** POST /api/reserve of the single-device server *)

(** X21. The weekday guard of the single-device server lets through a date
    that does not parse: [getUTCDay] is then NaN, equal to neither 0 nor 6,
    and a body that passes the guard on its fields is booked on a free slot
    with answer 200. *)
Theorem single_reserve_unparsed_date {js : JSDate} clk body db :
  Date_parse (Single.rq_fecha body) = None ->
  Single.reserve_invalid body = false ->
  slot_taken (Single.rq_ipad_id body, Single.rq_fecha body,
              Single.rq_bloque_horario body) (reservations db) = false ->
  exists db',
    Single.post_reserve clk body db = (Ok200, db')
    /\ slot_taken (Single.rq_ipad_id body, Single.rq_fecha body,
                   Single.rq_bloque_horario body) (reservations db') = true.
Proof.
  intros Hp Hv Hfree.
  destruct (single_reserve_ignores_device_pool clk body db Hv)
    as (db' & E & Ht & _); [|exact Hfree|exists db'; auto].
  unfold Single.day_of. rewrite Hp. reflexivity.
Qed.

Lemma single_reserve_unparsed_date_witness :
  exists db',
    Single.post_reserve (js := iso_engine) ex_clk
      (Single.mkReserveBody 7 "next Saturday" "1st" "Ana" "") init_db
    = (Ok200, db')
    /\ slot_taken (7, "next Saturday", "1st") (reservations db') = true.
Proof.
  apply (single_reserve_unparsed_date (js := iso_engine) ex_clk
           (Single.mkReserveBody 7 "next Saturday" "1st" "Ana" "") init_db);
    reflexivity.
Defined.

(** X22. The single-device server answers 409 exactly when the body passes
    the guard on its fields, the date is not refused as a week-end, and the
    slot has a row already; the database is then left as it was. *)
Theorem single_reserve_conflict_iff {js : JSDate} clk body db :
  (fst (Single.post_reserve clk body db) = Conflict409 <->
   Single.reserve_invalid body = false
   /\ Single.is_weekend (Single.day_of (Single.rq_fecha body)) = false
   /\ slot_taken (Single.rq_ipad_id body, Single.rq_fecha body,
                  Single.rq_bloque_horario body) (reservations db) = true)
  /\ (fst (Single.post_reserve clk body db) = Conflict409 ->
      snd (Single.post_reserve clk body db) = db).
Proof.
  unfold Single.post_reserve, insert_reservation.
  destruct (Single.reserve_invalid body);
    [cbn; split; [split; [discriminate | intros (H & _); discriminate]
                 | reflexivity]|].
  destruct (Single.is_weekend _);
    [cbn; split; [split; [discriminate | intros (_ & H & _); discriminate]
                 | reflexivity]|].
  destruct (slot_taken _ _); cbn.
  - split; [split; auto | reflexivity].
  - split; [split; [discriminate | intros (_ & _ & H); discriminate]
           | discriminate].
Qed.

Example listing_by_docente :
  map h_tipo
    (Listing.get_reservations (engine := rowid_engine)
       (listing := plain_listing) "3" "2025" "an"
       (snd (Batch.post_return (engine := rowid_engine) ex_later
               (Batch.mkReturnBody [7] "2025-03-10" "Juana" "" "") ex_db_7)))
  = [RESERVA; RESERVA; DEVOLUCION]
  /\ Listing.get_reservations (engine := rowid_engine)
       (listing := plain_listing) "3" "2025" "jua" ex_db_7 = [].
Proof. split; reflexivity. Qed.

(** ** Rows of past days *)

(** X23. The rows of past days cannot be removed: a request served on some
    day leaves in place every row whose date is, as a string, before that
    day, because a Return for such a date is refused and a Return for
    another date does not match the row. *)
Theorem past_rows_stay {engine : SQLite} {js : JSDate} rq db r :
  In r (reservations db) ->
  JS.lt (fecha r) (todayStr (clock_of rq)) = true ->
  In r (reservations (snd (handle rq db))).
Proof.
  intros Hr Hpast.
  destruct rq as [clk body | clk body | clk body];
    cbn [clock_of] in Hpast; cbn [handle].
  - rewrite post_reserve_decision.
    destruct (Batch.reserve_invalid body); [exact Hr|].
    destruct (bookable body db); [|exact Hr].
    cbn [snd reservations]. apply in_or_app; left; exact Hr.
  - destruct (post_return_cases clk body db)
      as [[_ E] | [(_ & _ & _ & E) | (_ & Hd & _ & blocks & E)]];
      rewrite E; cbn [snd reservations]; try exact Hr.
    unfold kept. apply filter_In. split; [exact Hr|].
    apply negb_true_iff. destruct (in_batch _ _ r) eqn:Hb; [|reflexivity].
    apply in_batch_spec in Hb. destruct Hb as [_ Hf].
    rewrite Hf in Hpast. congruence.
  - unfold Single.post_reserve.
    destruct (Single.reserve_invalid body); [exact Hr|].
    destruct (Single.is_weekend _); [exact Hr|].
    unfold insert_reservation.
    destruct (slot_taken _ _); [exact Hr|].
    cbn [snd reservations]. apply in_or_app; left; exact Hr.
Qed.

Lemma past_rows_stay_witness :
  In (mkReservation 1 7 "2025-03-10" "1st" "Ana" "5A" "2025-03-10 12:00:00")
     (reservations
        (snd (handle (engine := rowid_engine) (js := iso_engine)
                (Return (mkClock (mkCivil 2025 3 11) "2025-03-11 08:00:00")
                   (ex_return [7] "2025-03-10"))
                ex_db_7))).
Proof.
  apply (past_rows_stay (engine := rowid_engine) (js := iso_engine)
           (Return (mkClock (mkCivil 2025 3 11) "2025-03-11 08:00:00")
              (ex_return [7] "2025-03-10"))
           ex_db_7).
  - left; reflexivity.
  - reflexivity.
Defined.
